(** * Flux containers and flux points of [gammapy.estimators]

    A shallow embedding of [gammapy/estimators/flux_map.py] (the [FluxMaps]
    container) and [gammapy/estimators/flux_point.py] ([FluxPoints] and
    [FluxPointsEstimator]), and the properties of the flux-representation
    engine proved about it.

    Conventions of the embedding.
    - numpy [float64] values are Rocq's primitive binary64 floats, so NaN,
      the infinities and rounding are those of the code;
    - an array is energy-major: one row per energy bin, each row holding the
      flattened spatial pixels of that bin (a flux point has one pixel);
    - a Python [dict] keyed by strings is a [gmap string _];
    - a raised exception is the [Raise] case of [result];
    - astropy units are not modelled: every quantity is taken in the unit its
      reference flux is computed in, so that [Quantity.to] is the identity;
    - the numerical methods of the spectral model classes, the fit, the
      energy-axis reader and the file writers are collaborators of these two
      files; they enter as the classes [SpectralMethods], [TableReaders] and
      [FitBackend]. *)

From Stdlib Require Import Floats Ascii.
From stdpp Require Import gmap strings list.

Local Open Scope string_scope.

(** ** Exceptions and results *)

Inductive exn : Type :=
  | AttributeError (msg : string)
  | KeyError (key : string)
  | ValueError (msg : string)
  | TypeError (msg : string)
  | OSError (msg : string).

Inductive result (A : Type) : Type :=
  | Ok (a : A)
  | Raise (e : exn).

Arguments Ok {A} a.
Arguments Raise {A} e.

Definition bind {A B : Type} (r : result A) (k : A -> result B) : result B :=
  match r with
  | Ok a => k a
  | Raise e => Raise e
  end.

Notation "'let*' x ':=' r 'in' k" := (bind r (fun x => k))
  (at level 10, x name, r at level 100, k at level 200).

Definition is_Ok {A : Type} (r : result A) : Prop := exists a, r = Ok a.

(** The value of a result that did not raise, and [d] otherwise. *)
Definition the_result {A : Type} (d : A) (r : result A) : A :=
  match r with
  | Ok a => a
  | Raise _ => d
  end.

(** [d[k]] on a dict: [KeyError] when the key is missing. *)
Definition getitem {V : Type} (d : gmap string V) (k : string) : result V :=
  match d !! k with
  | Some v => Ok v
  | None => Raise (KeyError k)
  end.

(** A value held in a [meta] dict or a table header. *)
Inductive pyval : Type :=
  | PyNum (x : float)
  | PyStr (s : string).

(** ** numpy on energy-major arrays *)

Abbreviation ndarray A := (list (list A)) (only parsing).

Definition shape {A : Type} (a : ndarray A) : list nat := length <$> a.

(** [a[i, j]]: the value of pixel [j] in energy bin [i]. *)
Definition item {A : Type} (a : ndarray A) (i j : nat) : option A :=
  a !! i ≫= fun row => row !! j.

Definition broadcast_error : exn :=
  ValueError "operands could not be broadcast together".

Module np.

Definition isnan (a : ndarray float) : ndarray bool :=
  fmap (M := list) PrimFloat.is_nan <$> a.

Definition isfinite (a : ndarray float) : ndarray bool :=
  fmap (M := list) PrimFloat.is_finite <$> a.

(** [np.sqrt] under [np.errstate(invalid="ignore")]: never raises. *)
Definition sqrt (a : ndarray float) : ndarray float :=
  fmap (M := list) PrimFloat.sqrt <$> a.

Definition negative (a : ndarray float) : ndarray float :=
  fmap (M := list) PrimFloat.opp <$> a.

(** [a > x] and [a < x] against a scalar. *)
Definition greater (a : ndarray float) (x : float) : ndarray bool :=
  fmap (M := list) (fun v => PrimFloat.ltb x v) <$> a.

Definition less (a : ndarray float) (x : float) : ndarray bool :=
  fmap (M := list) (fun v => PrimFloat.ltb v x) <$> a.

Definition where_row (c : list bool) (x y : list float) : list float :=
  zip_with (fun (b : bool) (xy : float * float) => if b then xy.1 else xy.2)
           c (zip x y).

(** [np.where(c, x, y)] on operands of one shape. *)
Definition where_ (c : ndarray bool) (x y : ndarray float)
  : result (ndarray float) :=
  if decide (shape c = shape x /\ shape x = shape y)
  then Ok (zip_with (fun (cr : list bool) (xy : list float * list float) =>
                       where_row cr xy.1 xy.2) c (zip x y))
  else Raise broadcast_error.

(** Element-wise binary operation on operands of one shape. *)
Definition elementwise (op : float -> float -> float)
    (x y : ndarray float) : result (ndarray float) :=
  if decide (shape x = shape y)
  then Ok (zip_with (zip_with op) x y)
  else Raise broadcast_error.

(** [a op f[:, np.newaxis, np.newaxis]]: the factor of an energy bin acts
    on every pixel of that bin. The operands have the same number of
    energy bins; numpy's stretching of an axis of length one is not
    modelled. *)
Definition per_energy (op : float -> float -> float)
    (a : ndarray float) (f : list float) : result (ndarray float) :=
  if decide (length a = length f)
  then Ok (zip_with (fun (row : list float) (fi : float) =>
                       (fun v => op v fi) <$> row) a f)
  else Raise broadcast_error.

End np.

(** ** Geometry and maps *)

(** The energy axis of a geometry: [N + 1] edges and [N] centres, the
    centres being whatever the axis defines them to be. *)
Record MapAxis : Type := mkMapAxis {
  edges : list float;
  center : list float
}.

Record Geom : Type := mkGeom {
  axes_energy : MapAxis
}.

Record Map (A : Type) : Type := mkMap {
  geom : Geom;
  data : ndarray A
}.

Arguments mkMap {A} geom data.
Arguments geom {A} m.
Arguments data {A} m.

(** [edges[:-1]] and [edges[1:]]. *)
Definition edges_min (ax : MapAxis) : list float := removelast (edges ax).
Definition edges_max (ax : MapAxis) : list float := tail (edges ax).

(** [m * q] and [m / q] for a map and a per-energy quantity of shape
    [(N, 1, 1)]. *)
Definition Map_mul (m : Map float) (q : list float) : result (Map float) :=
  let* d := np.per_energy PrimFloat.mul (data m) q in
  Ok (mkMap (geom m) d).

Definition Map_div (m : Map float) (q : list float) : result (Map float) :=
  let* d := np.per_energy PrimFloat.div (data m) q in
  Ok (mkMap (geom m) d).

(** [m1 - m2] for two maps. *)
Definition Map_sub (m1 m2 : Map float) : result (Map float) :=
  let* d := np.elementwise PrimFloat.sub (data m1) (data m2) in
  Ok (mkMap (geom m1) d).

(** ** Reference models *)

(** Model objects as they are constructed: the class and the arguments of
    the call. An argument left out of the call is [None] and stands for the
    default of the class. *)
Inductive SpectralModel : Type :=
  | PowerLawSpectralModel (index amplitude reference : option float)
  | TemplateSpectralModel (energy values : list (list float))
  | OtherSpectralModel (tag : string).

(** [SkyModel(spectral_model)]: no spatial model, that is a point source. *)
Record SkyModel : Type := mkSkyModel {
  spectral_model : SpectralModel;
  spatial_model : option string
}.

Definition SkyModel_of (m : SpectralModel) : SkyModel := mkSkyModel m None.

(** Modelled from the spec: the default spectral index of
    [PowerLawSpectralModel], whose class is not part of the sources; the
    default reference model is a power law of index 2. *)
Definition PowerLawSpectralModel_default_index : float := 2%float.


(** The capability interface of a spectral model: its value at an energy,
    its integral and its energy flux between two energies. *)
Class SpectralMethods : Type := {
  evaluate : SpectralModel -> float -> float;
  integral : SpectralModel -> float -> float -> float;
  energy_flux : SpectralModel -> float -> float -> float
}.

(** ** The quantity registry *)

Definition REQUIRED_MAPS : list (string * list string) :=
  [ ("dnde", ["dnde"]);
    ("e2dnde", ["e2dnde"]);
    ("flux", ["flux"]);
    ("eflux", ["eflux"]);
    ("likelihood", ["norm"]) ].

Definition REQUIRED_COLUMNS : list (string * list string) :=
  [ ("dnde", ["e_ref"; "dnde"]);
    ("e2dnde", ["e_ref"; "e2dnde"]);
    ("flux", ["e_min"; "e_max"; "flux"]);
    ("eflux", ["e_min"; "e_max"; "eflux"]);
    ("likelihood",
     ["e_min"; "e_max"; "e_ref"; "ref_dnde"; "ref_flux"; "ref_eflux"; "norm"]) ].

Definition REQUIRED_QUANTITIES_SCAN : list string := ["stat_scan"; "stat"].

Definition OPTIONAL_QUANTITIES : list (string * list string) :=
  [ ("dnde", ["dnde_err"; "dnde_errp"; "dnde_errn"; "dnde_ul"]);
    ("e2dnde", ["e2dnde_err"; "e2dnde_errp"; "e2dnde_errn"; "e2dnde_ul"]);
    ("flux", ["flux_err"; "flux_errp"; "flux_errn"; "flux_ul"]);
    ("eflux", ["eflux_err"; "eflux_errp"; "eflux_errn"; "eflux_ul"]);
    ("likelihood", ["norm_err"; "norm_errn"; "norm_errp"; "norm_ul"]) ].

Definition VALID_QUANTITIES : list string :=
  [ "norm"; "norm_err"; "norm_errn"; "norm_errp"; "norm_ul"; "ts"; "sqrt_ts";
    "npred"; "npred_excess"; "npred_null"; "stat"; "stat_scan"; "stat_null";
    "niter"; "is_ul"; "counts" ].

Definition OPTIONAL_QUANTITIES_COMMON : list string :=
  [ "ts"; "sqrt_ts"; "npred"; "npred_excess"; "npred_null"; "stat";
    "stat_null"; "niter"; "counts" ].

(** [table[key]] on one of the registry dicts, and its [keys()] in the
    order they were written. *)
Definition registry_get {V : Type} (t : list (string * V)) (k : string)
  : option V :=
  snd <$> find (fun p => String.eqb p.1 k) t.

Definition registry_getitem {V : Type} (t : list (string * V)) (k : string)
  : result V :=
  match registry_get t k with
  | Some v => Ok v
  | None => Raise (KeyError k)
  end.

Definition registry_keys {V : Type} (t : list (string * V)) : list string :=
  fst <$> t.

(** [set(required).issubset(keys)]. *)
Definition issubset (required : list string) (keys : list string) : bool :=
  forallb (fun k => bool_decide (k ∈ keys)) required.

(** [dict.keys()] of a [gmap]. *)
Definition keys {V : Type} (d : gmap string V) : list string :=
  (map_to_list d).*1.

Definition sed_families : list string := ["dnde"; "e2dnde"; "flux"; "eflux"].

(** The suffixes of a quantity and of its error and upper-limit siblings. *)
Definition variants : list string := [""; "_err"; "_errn"; "_errp"; "_ul"].

(** The suffixes of the optional quantities, in the order of
    [OPTIONAL_QUANTITIES] for the flux families. *)
Definition error_variants : list string := ["_err"; "_errp"; "_errn"; "_ul"].

(** The optional quantities of the canonical representation: the errors
    and upper limit of [norm], the common ones and the scan. *)
Definition optional_quantity_names : list string :=
  (default [] (registry_get OPTIONAL_QUANTITIES "likelihood")
   ++ OPTIONAL_QUANTITIES_COMMON ++ ["stat_scan"])%list.

(** Those that an accessor reads from storage as they are; [sqrt_ts] and
    [npred_excess] have accessors that compute. *)
Definition stored_names : list string :=
  filter (fun q => q ∉ ["sqrt_ts"; "npred_excess"]) optional_quantity_names.

(** ** The container [FluxMaps] *)

Definition GTI : Type := list (float * float).

Record FluxMaps : Type := mkFluxMaps {
  _data : gmap string (Map float);
  _reference_model : option SkyModel;
  meta : gmap string pyval;
  gti : option GTI
}.

(** What a caller may pass as [reference_model]. *)
Inductive model_arg : Type :=
  | ASpectralModel (m : SpectralModel)
  | ASkyModel (m : SkyModel).

Definition as_SkyModel (a : model_arg) : SkyModel :=
  match a with
  | ASpectralModel m => SkyModel_of m
  | ASkyModel m => m
  end.

(** [FluxMaps.__init__]. *)
Definition FluxMaps_init (data_ : gmap string (Map float))
    (reference_model : option model_arg)
    (meta_ : option (gmap string pyval)) (gti_ : option GTI) : FluxMaps :=
  mkFluxMaps data_ (as_SkyModel <$> reference_model) (default ∅ meta_) gti_.

Definition available_quantities (c : FluxMaps) : list string :=
  keys (_data c).

Definition all_quantities (sed_type : string) : result (list string) :=
  let* required := registry_getitem REQUIRED_MAPS sed_type in
  let* optional := registry_getitem OPTIONAL_QUANTITIES sed_type in
  let quantities :=
    (required ++ optional ++ OPTIONAL_QUANTITIES_COMMON)%list in
  if String.eqb sed_type "likelihood"
  then Ok (quantities ++ REQUIRED_QUANTITIES_SCAN)%list
  else Ok quantities.

Definition not_defined (quantity : string) : exn :=
  AttributeError
    ("Quantity '" ++ quantity ++ "' is not defined on current flux estimate.").

Definition _check_quantity (c : FluxMaps) (quantity : string) : result unit :=
  if bool_decide (quantity ∈ available_quantities c)
  then Ok tt
  else Raise (not_defined quantity).

(** [_validate_data(data, sed_type)] with [check_scan=False], on the keys
    of [data]. (The message of the second error goes on with the names
    that are missing.) *)
Definition _validate_data (data_keys : list string) (sed_type : string)
  : result unit :=
  match registry_get REQUIRED_MAPS sed_type with
  | None => Raise (ValueError ("Unknown SED type: '" ++ sed_type ++ "'"))
  | Some required =>
      if issubset required data_keys
      then Ok tt
      else Raise (ValueError
                    ("Missing data / column for sed type '" ++ sed_type ++ "'"))
  end.

(** [_guess_sed_type]: the first SED type, in the order of
    [REQUIRED_COLUMNS], all of whose required columns are present. *)
Definition _guess_sed_type (quantities : list string) : option string :=
  find (fun sed_type =>
          match registry_get REQUIRED_COLUMNS sed_type with
          | Some required => issubset required quantities
          | None => false
          end)
       (registry_keys REQUIRED_COLUMNS).

Definition ts_threshold_ul (c : FluxMaps) : pyval :=
  default (PyNum 4%float) (meta c !! "ts_threshold_ul").

(** A quantity that is read from storage after [_check_quantity]. *)
Definition stored_quantity (quantity : string) (c : FluxMaps)
  : result (Map float) :=
  let* _ := _check_quantity c quantity in
  getitem (_data c) quantity.

(** [norm] is read without a check: it is always there. *)
Definition norm (c : FluxMaps) : result (Map float) :=
  getitem (_data c) "norm".

(** The properties that check for a quantity and return it. *)
Definition niter := stored_quantity "niter".
Definition counts := stored_quantity "counts".
Definition npred := stored_quantity "npred".
Definition npred_null := stored_quantity "npred_null".
Definition stat_scan := stored_quantity "stat_scan".
Definition stat := stored_quantity "stat".
Definition stat_null := stored_quantity "stat_null".
Definition ts := stored_quantity "ts".
Definition norm_err := stored_quantity "norm_err".
Definition norm_errn := stored_quantity "norm_errn".
Definition norm_errp := stored_quantity "norm_errp".
Definition norm_ul := stored_quantity "norm_ul".

(** [npred_excess]: the difference of [npred] and [npred_null]. *)
Definition npred_excess (c : FluxMaps) : result (Map float) :=
  let* _ := _check_quantity c "npred" in
  let* _ := _check_quantity c "npred_null" in
  let* a := getitem (_data c) "npred" in
  let* b := getitem (_data c) "npred_null" in
  Map_sub a b.

Definition FluxMaps_geom (c : FluxMaps) : result Geom :=
  let* n := norm c in Ok (geom n).

Definition energy_axis (c : FluxMaps) : result MapAxis :=
  let* g := FluxMaps_geom c in Ok (axes_energy g).

(** [self.reference_model.spectral_model]; without a reference model the
    attribute lookup on [None] fails. *)
Definition reference_spectral_model (c : FluxMaps) : result SpectralModel :=
  match _reference_model c with
  | Some m => Ok (spectral_model m)
  | None =>
      Raise (AttributeError
               "'NoneType' object has no attribute 'spectral_model'")
  end.

(** [x < threshold] where the threshold comes from [meta]. *)
Definition less_than_meta (a : ndarray float) (threshold : pyval)
  : result (ndarray bool) :=
  match threshold with
  | PyNum x => Ok (np.less a x)
  | PyStr _ =>
      Raise (TypeError "'<' not supported between 'float' and 'str'")
  end.

(** [is_ul]: a copy of [norm] whose data is the boolean array of the
    branch taken. *)
Definition is_ul (c : FluxMaps) : result (Map bool) :=
  let* n := norm c in
  if bool_decide ("ts" ∈ keys (_data c))
     && bool_decide ("norm_ul" ∈ keys (_data c))
  then
    let* t := ts c in
    let* d := less_than_meta (data t) (ts_threshold_ul c) in
    Ok (mkMap (geom n) d)
  else if bool_decide ("norm_ul" ∈ keys (_data c))
  then
    let* u := norm_ul c in
    Ok (mkMap (geom n) (np.isfinite (data u)))
  else
    let* n' := norm c in
    Ok (mkMap (geom n) (np.isnan (data n'))).

(** [sqrt_ts]: the stored map, or
    [np.where(norm > 0, np.sqrt(ts), -np.sqrt(ts))] on the geometry of
    [norm]. *)
Definition sqrt_ts (c : FluxMaps) : result (Map float) :=
  if bool_decide ("sqrt_ts" ∈ keys (_data c))
  then getitem (_data c) "sqrt_ts"
  else
    let* n := norm c in
    let* t1 := ts c in
    let* t2 := ts c in
    let* d := np.where_ (np.greater (data n) 0%float)
                        (np.sqrt (data t1))
                        (np.negative (np.sqrt (data t2))) in
    let* g := FluxMaps_geom c in
    Ok (mkMap g d).

(** [np.sign] and [np.maximum] on one value. *)
Definition np_sign (x : float) : float :=
  if PrimFloat.ltb x 0%float then (-1)%float
  else if PrimFloat.ltb 0%float x then 1%float
  else if PrimFloat.is_nan x then x
  else 0%float.

Definition np_maximum (x y : float) : float :=
  if PrimFloat.is_nan x then x
  else if PrimFloat.is_nan y then y
  else if PrimFloat.ltb x y then y else x.

(** The value of [sqrt_ts] in one bin as the specification words it:
    [sign(norm) * sqrt(max(ts, 0))]. *)
Definition signed_sqrt_of_clipped_ts (norm_ ts_ : float) : float :=
  PrimFloat.mul (np_sign norm_) (PrimFloat.sqrt (np_maximum ts_ 0%float)).

(** ** Python strings *)

Fixpoint replace_from (old new : string) (skip : nat) (s : string) : string :=
  match s with
  | EmptyString => EmptyString
  | String ch rest =>
      match skip with
      | S k => replace_from old new k rest
      | O =>
          if String.prefix old s
          then new ++ replace_from old new (String.length old - 1) rest
          else String ch (replace_from old new 0 rest)
      end
  end.

Fixpoint intersperse_string (new s : string) : string :=
  match s with
  | EmptyString => EmptyString
  | String ch rest => String ch (new ++ intersperse_string new rest)
  end.

(** [s.replace(old, new)]: every non-overlapping occurrence, from the
    left. *)
Definition str_replace (s old new : string) : string :=
  match old with
  | EmptyString => new ++ intersperse_string new s
  | _ => replace_from old new 0 s
  end.

(** ** Logging *)

Inductive log_level : Type := WARNING | INFO.

Definition log_record : Type := (log_level * string)%type.

(** A computation together with the records it sent to the logger. *)
Definition logged (A : Type) : Type := (list log_record * A)%type.

(** Loops that stop at the first exception. *)
Fixpoint for_each {A S : Type} (body : S -> A -> result S) (l : list A)
    (s : S) : result S :=
  match l with
  | [] => Ok s
  | x :: l' => let* s' := body s x in for_each body l' s'
  end.

(** A loop that, for each key, computes an optional value and stores it
    under a name derived from the key. *)
Definition fill {K V : Type} (g : K -> result (option V))
    (rename : K -> string) (l : list K) (d : gmap string V)
  : result (gmap string V) :=
  for_each (fun d key =>
              match g key with
              | Ok (Some v) => Ok (<[rename key := v]> d)
              | Ok None => Ok d
              | Raise e => Raise e
              end) l d.

(** A map with every energy bin combined with the factor of that bin. *)
Definition scale_map (op : float -> float -> float) (r : list float)
    (q : Map float) : Map float :=
  mkMap (geom q)
        (zip_with (fun (row : list float) (fi : float) =>
                     (fun v => op v fi) <$> row) (data q) r).

(** The invariants of a container: [norm] is stored, there is a reference
    model, the energy axis has one more edge than it has bins, [norm] has
    one row per bin, and every stored quantity shares the geometry of
    [norm], the scan apart, which has one more axis. *)
Definition well_formed (c : FluxMaps) (n : Map float) (rm : SkyModel)
  : Prop :=
  _data c !! "norm" = Some n /\
  _reference_model c = Some rm /\
  length (edges (axes_energy (geom n)))
  = S (length (center (axes_energy (geom n)))) /\
  length (data n) = length (center (axes_energy (geom n))) /\
  forall q m, q <> "stat_scan" -> _data c !! q = Some m ->
              shape (data m) = shape (data n).

(** The common optional quantities that a round trip keeps as they are
    stored: all of them but [npred_excess], which is always recomputed. *)
Definition kept_common : list string :=
  filter (fun q => q <> "npred_excess") OPTIONAL_QUANTITIES_COMMON.

Definition sed_types : list string :=
  ["dnde"; "e2dnde"; "flux"; "eflux"; "likelihood"].

Section Conversions.

Context `{SpectralMethods}.

(** *** Reference fluxes of the container *)

Definition dnde_ref (c : FluxMaps) : result (list float) :=
  let* m := reference_spectral_model c in
  let* ax := energy_axis c in
  Ok (evaluate m <$> center ax).

Definition e2dnde_ref (c : FluxMaps) : result (list float) :=
  let* ax := energy_axis c in
  let energy := center ax in
  let* m := reference_spectral_model c in
  Ok (zip_with PrimFloat.mul (evaluate m <$> energy)
               ((fun e => PrimFloat.mul e e) <$> energy)).

Definition flux_ref (c : FluxMaps) : result (list float) :=
  let* ax1 := energy_axis c in
  let energy_min := edges_min ax1 in
  let* ax2 := energy_axis c in
  let energy_max := edges_max ax2 in
  let* m := reference_spectral_model c in
  Ok (zip_with (integral m) energy_min energy_max).

Definition eflux_ref (c : FluxMaps) : result (list float) :=
  let* ax1 := energy_axis c in
  let energy_min := edges_min ax1 in
  let* ax2 := energy_axis c in
  let energy_max := edges_max ax2 in
  let* m := reference_spectral_model c in
  Ok (zip_with (energy_flux m) energy_min energy_max).

(** *** Derived quantities: [self.<norm quantity> * self.<family>_ref] *)

Definition times_ref (quantity : FluxMaps -> result (Map float))
    (ref : FluxMaps -> result (list float)) (c : FluxMaps)
  : result (Map float) :=
  let* q := quantity c in
  let* r := ref c in
  Map_mul q r.

Definition dnde := times_ref norm dnde_ref.
Definition dnde_err := times_ref norm_err dnde_ref.
Definition dnde_errn := times_ref norm_errn dnde_ref.
Definition dnde_errp := times_ref norm_errp dnde_ref.
Definition dnde_ul := times_ref norm_ul dnde_ref.

Definition e2dnde := times_ref norm e2dnde_ref.
Definition e2dnde_err := times_ref norm_err e2dnde_ref.
Definition e2dnde_errn := times_ref norm_errn e2dnde_ref.
Definition e2dnde_errp := times_ref norm_errp e2dnde_ref.
Definition e2dnde_ul := times_ref norm_ul e2dnde_ref.

Definition flux := times_ref norm flux_ref.
Definition flux_err := times_ref norm_err flux_ref.
Definition flux_errn := times_ref norm_errn flux_ref.
Definition flux_errp := times_ref norm_errp flux_ref.
Definition flux_ul := times_ref norm_ul flux_ref.

Definition eflux := times_ref norm eflux_ref.
Definition eflux_err := times_ref norm_err eflux_ref.
Definition eflux_errn := times_ref norm_errn eflux_ref.
Definition eflux_errp := times_ref norm_errp eflux_ref.
Definition eflux_ul := times_ref norm_ul eflux_ref.

(** The reference-flux factor of an SED family for one energy bin, as the
    specification words it: the reference model at the reference energy
    for [dnde], that value times the squared reference energy for
    [e2dnde], the integral over the bin for [flux] and the energy flux over
    the bin for [eflux]. *)
Definition reference_factor (family : string) (m : SpectralModel)
    (e_ref e_min e_max : float) : option float :=
  if String.eqb family "dnde" then Some (evaluate m e_ref)
  else if String.eqb family "e2dnde"
  then Some (PrimFloat.mul (evaluate m e_ref) (PrimFloat.mul e_ref e_ref))
  else if String.eqb family "flux" then Some (integral m e_min e_max)
  else if String.eqb family "eflux" then Some (energy_flux m e_min e_max)
  else None.

(** The reference fluxes of a family, by name. *)
Definition family_ref (family : string)
  : option (FluxMaps -> result (list float)) :=
  if String.eqb family "dnde" then Some dnde_ref
  else if String.eqb family "e2dnde" then Some e2dnde_ref
  else if String.eqb family "flux" then Some flux_ref
  else if String.eqb family "eflux" then Some eflux_ref
  else None.

(** *** Attribute lookup by name *)

(** The map-valued properties of the class, by name. ([is_ul] and the
    [*_ref] properties return a boolean map and plain arrays; no caller
    modelled here asks for them by name.) *)
Definition properties : list (string * (FluxMaps -> result (Map float))) :=
  [ ("niter", niter); ("counts", counts); ("npred", npred);
    ("npred_null", npred_null); ("npred_excess", npred_excess);
    ("stat_scan", stat_scan); ("stat", stat); ("stat_null", stat_null);
    ("ts", ts); ("sqrt_ts", sqrt_ts);
    ("norm", norm); ("norm_err", norm_err); ("norm_errn", norm_errn);
    ("norm_errp", norm_errp); ("norm_ul", norm_ul);
    ("dnde", dnde); ("dnde_err", dnde_err); ("dnde_errn", dnde_errn);
    ("dnde_errp", dnde_errp); ("dnde_ul", dnde_ul);
    ("e2dnde", e2dnde); ("e2dnde_err", e2dnde_err);
    ("e2dnde_errn", e2dnde_errn); ("e2dnde_errp", e2dnde_errp);
    ("e2dnde_ul", e2dnde_ul);
    ("flux", flux); ("flux_err", flux_err); ("flux_errn", flux_errn);
    ("flux_errp", flux_errp); ("flux_ul", flux_ul);
    ("eflux", eflux); ("eflux_err", eflux_err); ("eflux_errn", eflux_errn);
    ("eflux_errp", eflux_errp); ("eflux_ul", eflux_ul) ].

(** [getattr(self, name)]. *)
Definition getattr (c : FluxMaps) (name : string) : result (Map float) :=
  match registry_get properties name with
  | Some property => property c
  | None =>
      Raise (AttributeError
               ("'FluxMaps' object has no attribute '" ++ name ++ "'"))
  end.

(** [getattr(self, name, None)]: only [AttributeError] is turned into the
    default. *)
Definition getattr_or_None (c : FluxMaps) (name : string)
  : result (option (Map float)) :=
  match getattr c name with
  | Ok m => Ok (Some m)
  | Raise (AttributeError _) => Ok None
  | Raise e => Raise e
  end.

(** *** [to_maps] and [from_maps] *)

Definition to_maps (c : FluxMaps) (sed_type : string)
  : result (gmap string (Map float)) :=
  let* quantities := all_quantities sed_type in
  for_each (fun (maps : gmap string (Map float)) quantity =>
              let* m := getattr_or_None c quantity in
              match m with
              | Some m => Ok (<[quantity := m]> maps)
              | None => Ok maps
              end)
           quantities ∅.

Definition reference_model_default : SkyModel :=
  SkyModel_of (PowerLawSpectralModel (Some 2%float) None None).

(** Modelled from the spec: [SpectralModel.reference_fluxes], a method of
    a class that is not part of the sources. The conversion factor of an
    energy bin is the reference model at the bin's reference energy
    (differential), or integrated over the bin (integral and energy
    flux). *)
Definition reference_fluxes (m : SpectralModel) (ax : MapAxis)
  : gmap string (list float) :=
  let energy := center ax in
  list_to_map
    [ ("e_ref", energy);
      ("e_min", edges_min ax);
      ("e_max", edges_max ax);
      ("ref_dnde", evaluate m <$> energy);
      ("ref_flux", zip_with (integral m) (edges_min ax) (edges_max ax));
      ("ref_eflux", zip_with (energy_flux m) (edges_min ax) (edges_max ax));
      ("ref_e2dnde",
       zip_with PrimFloat.mul (evaluate m <$> energy)
                ((fun e => PrimFloat.mul e e) <$> energy)) ].

Definition no_reference_model_FluxMaps : log_record :=
  (WARNING,
   "No reference model set for FluxMaps. Assuming point source with E^-2 spectrum.").

(** The part of [from_maps] after the reference model is settled. *)
Definition from_maps_convert (maps : gmap string (Map float))
    (sed_type : string) (reference_model : SkyModel)
    (gti_ : option GTI) (meta_ : option (gmap string pyval))
  : result FluxMaps :=
  let* map_ref := getitem maps sed_type in
  let energy_axis_ := axes_energy (geom map_ref) in
  let fluxes :=
    reference_fluxes (spectral_model reference_model) energy_axis_ in
  let* factor := getitem fluxes ("ref_" ++ sed_type) in
  let* n := Map_div map_ref factor in
  let data0 : gmap string (Map float) := <["norm" := n]> ∅ in
  let* optional := registry_getitem OPTIONAL_QUANTITIES sed_type in
  let* data1 :=
    for_each (fun (d : gmap string (Map float)) key =>
                match maps !! key with
                | Some m =>
                    let norm_type := str_replace key sed_type "norm" in
                    let* q := Map_div m factor in
                    Ok (<[norm_type := q]> d)
                | None => Ok d
                end)
             optional data0 in
  let data2 :=
    foldl (fun (d : gmap string (Map float)) key =>
             match maps !! key with
             | Some m => <[key := m]> d
             | None => d
             end)
          data1 OPTIONAL_QUANTITIES_COMMON in
  Ok (FluxMaps_init data2 (Some (ASkyModel reference_model)) meta_ gti_).

Definition from_maps (maps : gmap string (Map float))
    (sed_type : option string) (reference_model : option model_arg)
    (gti_ : option GTI) (meta_ : option (gmap string pyval))
  : logged (result FluxMaps) :=
  let sed_type :=
    match sed_type with
    | Some t => Some t
    | None => _guess_sed_type (keys maps)
    end in
  match sed_type with
  | None => ([], Raise (ValueError "Specifying the sed type is required"))
  | Some sed_type =>
      match _validate_data (keys maps) sed_type with
      | Raise e => ([], Raise e)
      | Ok _ =>
          if String.eqb sed_type "likelihood"
          then ([], Ok (FluxMaps_init maps reference_model meta_ gti_))
          else
            match reference_model with
            | None =>
                ([no_reference_model_FluxMaps],
                 from_maps_convert maps sed_type reference_model_default
                                   gti_ meta_)
            | Some a =>
                ([], from_maps_convert maps sed_type (as_SkyModel a)
                                       gti_ meta_)
            end
      end
  end.

End Conversions.

(** ** Tables and [FluxPoints] *)

(** A column has one cell per row; a cell holds one value, or the values
    of a profile. *)
Abbreviation Column := (list (list float)) (only parsing).

Record Table : Type := mkTable {
  columns : gmap string Column;
  table_meta : gmap string pyval
}.

Definition colnames (t : Table) : list string := keys (columns t).

(** [table[name] = column]. *)
Definition set_column (t : Table) (name : string) (col : Column) : Table :=
  mkTable (<[name := col]> (columns t)) (table_meta t).

(** [x * column] for a Python number [x]. *)
Definition scalar_times (x : float) (col : Column) : Column :=
  fmap (M := list) (PrimFloat.mul x) <$> col.

(** One [if] of [_convert_loglike_columns]. *)
Definition convert_legacy_column (legacy canonical : string) (t : Table)
  : Table :=
  if bool_decide (legacy ∈ colnames t)
     && negb (bool_decide (canonical ∈ colnames t))
  then match columns t !! legacy with
       | Some col => set_column t canonical (scalar_times 2%float col)
       | None => t
       end
  else t.

Definition _convert_loglike_columns (table : Table) : Table :=
  let table := convert_legacy_column "loglike" "stat" table in
  let table := convert_legacy_column "loglike_null" "stat_null" table in
  let table := convert_legacy_column "dloglike_scan" "stat_scan" table in
  table.

(** The readers of [gammapy.maps] that turn a table into an energy axis
    and a column into a map. *)
Class TableReaders : Type := {
  MapAxis_from_table : Table -> result MapAxis;
  RegionNDMap_from_table : Table -> string -> result (Map float)
}.

(** [FluxPoints._guess_sed_type(table)]. *)
Definition FluxPoints_guess_sed_type (table : Table) : option string :=
  _guess_sed_type (colnames table).

Definition no_reference_model_FluxPoints : log_record :=
  (WARNING,
   "No reference model set for FluxPoints. Assuming point source with E^-2 spectrum.").

(** [cls(data=maps, reference_spectral_model=..., meta=...)]. The base
    class of [FluxPoints] is the container above; it wraps the spectral
    model in a [SkyModel]. *)
Definition FluxPoints_init (data_ : gmap string (Map float))
    (reference_spectral_model_ : SpectralModel) (meta_ : gmap string pyval)
  : FluxMaps :=
  FluxMaps_init data_ (Some (ASpectralModel reference_spectral_model_))
                (Some meta_) None.

Section FluxPoints.

Context `{SpectralMethods} `{TableReaders}.

Definition _convert_flux_columns (table : Table)
    (reference_model : SpectralModel) (sed_type : string) : result Table :=
  let* energy_axis_ := MapAxis_from_table table in
  let fluxes := reference_fluxes reference_model energy_axis_ in
  let* col_ref := getitem (columns table) sed_type in
  let* factor := getitem fluxes ("ref_" ++ sed_type) in
  let data0 :=
    mkTable ((fun (values : list float) => (fun x => [x]) <$> values)
               <$> fluxes)
            (table_meta table) in
  let* n := np.per_energy PrimFloat.div col_ref factor in
  let data1 := set_column data0 "norm" n in
  let* optional := registry_getitem OPTIONAL_QUANTITIES sed_type in
  for_each (fun (d : Table) key =>
              if bool_decide (key ∈ colnames table)
              then
                let norm_type := str_replace key sed_type "norm" in
                let* col := getitem (columns table) key in
                let* q := np.per_energy PrimFloat.div col factor in
                Ok (set_column d norm_type q)
              else Ok d)
           optional data1.

(** The maps of the columns that are valid quantities. *)
Definition maps_of_table (table : Table)
  : result (gmap string (Map float)) :=
  for_each (fun (maps : gmap string (Map float)) key =>
              if bool_decide (key ∈ colnames table)
              then
                let* m := RegionNDMap_from_table table key in
                Ok (<[key := m]> maps)
              else Ok maps)
           VALID_QUANTITIES ∅.

(** The part of [from_table] after the SED type is validated. *)
Definition from_table_convert (table : Table) (sed_type : string)
    (reference_model : option SpectralModel) : logged (result FluxMaps) :=
  if bool_decide (sed_type ∈ ["dnde"; "eflux"; "e2dnde"; "flux"])
  then
    let '(records, model) :=
      match reference_model with
      | None => ([no_reference_model_FluxPoints],
                 PowerLawSpectralModel None None None)
      | Some m => ([], m)
      end in
    (records,
     let* table' := _convert_flux_columns table model sed_type in
     let* maps := maps_of_table table' in
     Ok (FluxPoints_init maps model (table_meta table')))
  else if String.eqb sed_type "likelihood"
  then
    let table' := _convert_loglike_columns table in
    ([],
     let* model :=
       match reference_model with
       | None =>
           let* energy := getitem (columns table') "e_ref" in
           let* values := getitem (columns table') "ref_dnde" in
           Ok (TemplateSpectralModel energy values)
       | Some m => Ok m
       end in
     let* maps := maps_of_table table' in
     Ok (FluxPoints_init maps model (table_meta table')))
  else ([], Raise (ValueError ("Not a valid SED type " ++ sed_type))).

Definition required_sed_type_error : exn :=
  ValueError "Specifying the sed type is required".

(** [FluxPoints.from_table]. A [SED_TYPE] header that is not a string
    names no SED type and is rejected by the validation. *)
Definition from_table (table : Table) (sed_type : option string)
    (reference_model : option SpectralModel) : logged (result FluxMaps) :=
  let sed_type : option pyval :=
    match sed_type with
    | Some t => Some (PyStr t)
    | None => table_meta table !! "SED_TYPE"
    end in
  let sed_type : option pyval :=
    match sed_type with
    | Some t => Some t
    | None => PyStr <$> FluxPoints_guess_sed_type table
    end in
  match sed_type with
  | None => ([], Raise required_sed_type_error)
  | Some (PyNum _) => ([], Raise (ValueError "Unknown SED type"))
  | Some (PyStr sed_type) =>
      match _validate_data (colnames table) sed_type with
      | Raise e => ([], Raise e)
      | Ok _ => from_table_convert table sed_type reference_model
      end
  end.

End FluxPoints.

(** ** The flux point estimator *)

Record Dataset : Type := mkDataset {
  dataset_counts : Map float;
  dataset_mask : option (ndarray bool)
}.

Record Datasets : Type := mkDatasets {
  datasets_list : list Dataset;
  datasets_models : gmap string SkyModel
}.

Record FluxPointsEstimator : Type := mkFluxPointsEstimator {
  energy_edges : list float;
  source : string
}.

(** A result row: a dict from quantity name to the values of one bin. *)
Abbreviation Row := (gmap string (list float)) (only parsing).

(** The collaborators of the estimator: the energy mask of a geometry
    (with [round_to_edge=True]), the slicing of the datasets to an energy
    range, and the fit of one energy group by the base class
    [FluxEstimator]. *)
Class FitBackend : Type := {
  energy_mask : Geom -> float -> float -> ndarray bool;
  slice_by_energy : Datasets -> float -> float -> Datasets;
  FluxEstimator_run : FluxPointsEstimator -> Datasets -> result Row
}.

Definition sum_floats (l : list float) : float :=
  foldl PrimFloat.add 0%float l.

(** [a[mask].sum()]: the sum of the entries selected by the mask. *)
Definition masked_sum (a : ndarray float) (mask : ndarray bool)
  : result float :=
  if decide (shape a = shape mask)
  then Ok (sum_floats
             (concat (zip_with (fun (row : list float) (mrow : list bool) =>
                                  omap (fun p : float * bool =>
                                          if p.2 then Some p.1 else None)
                                       (zip row mrow))
                               a mask)))
  else Raise (ValueError "boolean index did not match indexed array").

(** [mask & dataset.mask]. *)
Definition mask_and (m1 m2 : ndarray bool) : result (ndarray bool) :=
  if decide (shape m1 = shape m2)
  then Ok (zip_with (zip_with andb) m1 m2)
  else Raise broadcast_error.

Section Estimator.

Context `{SpectralMethods} `{TableReaders} `{FitBackend}.

(** [estimate_counts]: one entry per dataset. The counts are whole
    numbers, on which the cast to [int] changes nothing. *)
Definition estimate_counts (datasets : Datasets)
    (energy_min energy_max : float) : result Row :=
  let* counts_ :=
    for_each (fun (acc : list float) (dataset : Dataset) =>
                let mask := energy_mask (geom (dataset_counts dataset))
                                        energy_min energy_max in
                let* mask :=
                  match dataset_mask dataset with
                  | Some dm => mask_and mask dm
                  | None => Ok mask
                  end in
                let* total := masked_sum (data (dataset_counts dataset))
                                         mask in
                Ok (acc ++ [total])%list)
             (datasets_list datasets) [] in
  Ok ({[ "counts" := counts_ ]} : Row).

(** [result.update(other)]: the entries of [other] win. *)
Definition dict_update (r other : Row) : Row := other ∪ r.

Definition estimate_flux_point (self : FluxPointsEstimator)
    (datasets : Datasets) (energy_min energy_max : float) : result Row :=
  let sliced := slice_by_energy datasets energy_min energy_max in
  let datasets_sliced :=
    mkDatasets (datasets_list sliced) (datasets_models datasets) in
  let* r := estimate_counts datasets energy_min energy_max in
  let* fit := FluxEstimator_run self datasets_sliced in
  Ok (dict_update r fit).

(** The loop of [run]: one row per pair of
    [zip(energy_edges[:-1], energy_edges[1:])], appended in that order. *)
Definition run_rows (self : FluxPointsEstimator) (datasets : Datasets)
  : result (list Row) :=
  for_each (fun (rows : list Row) (bin : float * float) =>
              let* row := estimate_flux_point self datasets bin.1 bin.2 in
              Ok (rows ++ [row])%list)
           (zip (removelast (energy_edges self))
                (tail (energy_edges self)))
           [].

(** Modelled from the spec: [table_from_row_data] of
    [gammapy.utils.table], which is not part of the sources. The rows
    are stacked into one energy-indexed table: a column per entry of the
    first row, its cells being the rows' values in the order of the
    rows. *)
Definition table_from_row_data (rows : list Row)
    (meta_ : gmap string pyval) : result Table :=
  match rows with
  | [] => Ok (mkTable ∅ meta_)
  | first :: _ =>
      let* cols :=
        for_each (fun (cols : gmap string Column) name =>
                    let* coldata :=
                      for_each (fun (cells : Column) (row : Row) =>
                                  let* cell := getitem row name in
                                  Ok (cells ++ [cell])%list)
                               rows [] in
                    Ok (<[name := coldata]> cols))
                 (keys first) ∅ in
      Ok (mkTable cols meta_)
  end.

(** [datasets.models[self.source].spectral_model.copy()]. *)
Definition source_spectral_model (self : FluxPointsEstimator)
    (datasets : Datasets) : result SpectralModel :=
  let* model := getitem (datasets_models datasets) (source self) in
  Ok (spectral_model model).

Definition run (self : FluxPointsEstimator) (datasets : Datasets)
  : logged (result FluxMaps) :=
  match run_rows self datasets with
  | Raise e => ([], Raise e)
  | Ok rows =>
      match table_from_row_data rows {[ "SED_TYPE" := PyStr "likelihood" ]}
      with
      | Raise e => ([], Raise e)
      | Ok table =>
          match source_spectral_model self datasets with
          | Raise e => ([], Raise e)
          | Ok model => from_table table None (Some model)
          end
      end
  end.

End Estimator.

(** ** Writing a container to a file *)

(** [pathlib]: the name of a path and its suffixes. *)
Fixpoint split_on (sep : Ascii.ascii) (s : string) : list string :=
  match s with
  | EmptyString => [EmptyString]
  | String ch rest =>
      if Ascii.eqb ch sep
      then EmptyString :: split_on sep rest
      else match split_on sep rest with
           | piece :: pieces => String ch piece :: pieces
           | [] => [String ch EmptyString]
           end
  end.

Definition path_name (path : string) : string :=
  List.last (split_on "/"%char path) EmptyString.

Fixpoint lstrip_dots (s : string) : string :=
  match s with
  | String ch rest => if Ascii.eqb ch "."%char then lstrip_dots rest else s
  | EmptyString => s
  end.

Fixpoint ends_with_dot (s : string) : bool :=
  match s with
  | EmptyString => false
  | String ch EmptyString => Ascii.eqb ch "."%char
  | String _ rest => ends_with_dot rest
  end.

(** [PurePath.suffixes]. *)
Definition suffixes (path : string) : list string :=
  let name := path_name path in
  if ends_with_dot name
  then []
  else (fun suffix => "." ++ suffix)
         <$> tail (split_on "."%char (lstrip_dots name)).

(** The default of [filename_model] in [write]. The loop calls
    [name_string.replace(suffix, "")] for each suffix and drops what the
    call returns; Python strings are immutable, so [name_string] is what it
    was. *)
Definition default_filename_model (filename : string) : string :=
  let name_string := filename in
  let dropped :=
    (fun suffix => str_replace name_string suffix "")
      <$> suffixes filename in
  name_string ++ "_model.yaml".

(** The path as the docstring of [write] and the specification describe
    it: the primary path with its suffixes stripped, then ["_model.yaml"]. *)
Definition stripped_filename_model (filename : string) : string :=
  foldl (fun name suffix => str_replace name suffix "")
        filename (suffixes filename)
  ++ "_model.yaml".

Record HDUList : Type := mkHDUList {
  primary_header : gmap string pyval;
  map_hdus : gmap string (Map float);
  gti_hdu : option GTI
}.

Inductive file_content : Type :=
  | ModelsFile (models : list SkyModel)
  | FitsFile (hdulist : HDUList).

Abbreviation filesystem := (gmap string file_content) (only parsing).

Definition already_exists (path : string) : exn :=
  OSError ("File " ++ path ++ " already exists.").

(** Modelled from the spec: [Models.write] and [HDUList.writeto], which are
    not part of the sources. Writing fails if the target exists and
    [overwrite] is false; otherwise the whole file is written. *)
Definition write_file (fs : filesystem) (path : string)
    (content : file_content) (overwrite : bool) : result filesystem :=
  if negb overwrite && bool_decide (is_Some (fs !! path))
  then Raise (already_exists path)
  else Ok (<[path := content]> fs).

Section Write.

Context `{SpectralMethods}.

Definition to_hdulist (c : FluxMaps) (sed_type : string) : result HDUList :=
  let* maps := to_maps c sed_type in
  Ok (mkHDUList {[ "SED_TYPE" := PyStr sed_type ]} maps (gti c)).

(** [write]: the file system after the call, and whether it raised. *)
Definition write (c : FluxMaps) (filename : string)
    (filename_model : option string) (overwrite : bool)
    (sed_type : string) (fs : filesystem) : filesystem * result unit :=
  let filename_model :=
    match filename_model with
    | None => default_filename_model filename
    | Some f => f
    end in
  match to_hdulist c sed_type with
  | Raise e => (fs, Raise e)
  | Ok hdulist =>
      let models := option_list (_reference_model c) in
      match write_file fs filename_model (ModelsFile models) overwrite with
      | Raise e => (fs, Raise e)
      | Ok fs1 =>
          let hdulist :=
            mkHDUList (<["MODEL" := PyStr filename_model]>
                         (primary_header hdulist))
                      (map_hdus hdulist) (gti_hdu hdulist) in
          match write_file fs1 filename (FitsFile hdulist) overwrite with
          | Raise e => (fs1, Raise e)
          | Ok fs2 => (fs2, Ok tt)
          end
      end
  end.

End Write.


(** ** The round trip *)

Section RoundTrip.

Context `{SpectralMethods}.

(** [FluxMaps.from_maps(c.to_maps(t), t, reference_model)]. *)
Definition round_trip (c : FluxMaps) (sed_type : string)
    (reference_model : SkyModel) : logged (result FluxMaps) :=
  match to_maps c sed_type with
  | Ok maps =>
      from_maps maps (Some sed_type) (Some (ASkyModel reference_model))
                None None
  | Raise e => ([], Raise e)
  end.

End RoundTrip.

(** ** Concrete collaborators and inputs *)

(** A spectral model implementation to run the definitions on: the power
    law of index 2, [dnde(E) = A (E0 / E)^2], with its integral
    [A E0 (E0 / E1 - E0 / E2)] and its energy flux [A E0^2 ln(E2 / E1)].
    An argument left out of the constructor is [A = 1e-12] and [E0 = 1]. *)
Module PowerLaw2.

Definition float_of_Z (z : Z) : float :=
  match z with
  | Z0 => 0%float
  | Zpos _ => PrimFloat.of_uint63 (Uint63Axioms.of_Z z)
  | Zneg p => PrimFloat.opp (PrimFloat.of_uint63 (Uint63Axioms.of_Z (Zpos p)))
  end.

Fixpoint atanh_series (terms : nat) (z2 term k : float) : float :=
  match terms with
  | O => 0%float
  | S terms' =>
      PrimFloat.add (PrimFloat.div term k)
                    (atanh_series terms' z2 (PrimFloat.mul term z2)
                                  (PrimFloat.add k 2%float))
  end.

(** The natural logarithm of a positive float: the exponent times [ln 2]
    plus the series of [2 atanh((m - 1) / (m + 1))] for the mantissa. *)
Definition ln (x : float) : float :=
  let (m, e) := Z.frexp x in
  let z := PrimFloat.div (PrimFloat.sub m 1%float) (PrimFloat.add m 1%float) in
  PrimFloat.add (PrimFloat.mul (float_of_Z e) 0x1.62e42fefa39efp-1%float)
                (PrimFloat.mul 2%float
                               (atanh_series 40 (PrimFloat.mul z z) z 1%float)).

Definition parameters (m : SpectralModel) : option (float * float) :=
  match m with
  | PowerLawSpectralModel i a r =>
      if PrimFloat.eqb (default PowerLawSpectralModel_default_index i) 2%float
      then Some (default 0x1.19799812dea11p-40%float a, default 1%float r)
      else None
  | _ => None
  end.

Definition evaluate_ (m : SpectralModel) (e : float) : float :=
  match parameters m with
  | Some (a, r) =>
      PrimFloat.mul (PrimFloat.mul a (PrimFloat.div r e)) (PrimFloat.div r e)
  | None => nan
  end.

Definition integral_ (m : SpectralModel) (e1 e2 : float) : float :=
  match parameters m with
  | Some (a, r) =>
      PrimFloat.mul (PrimFloat.mul a r)
                    (PrimFloat.sub (PrimFloat.div r e1) (PrimFloat.div r e2))
  | None => nan
  end.

Definition energy_flux_ (m : SpectralModel) (e1 e2 : float) : float :=
  match parameters m with
  | Some (a, r) =>
      PrimFloat.mul (PrimFloat.mul (PrimFloat.mul a r) r)
                    (ln (PrimFloat.div e2 e1))
  | None => nan
  end.

#[export] Instance methods : SpectralMethods := {|
  evaluate := evaluate_;
  integral := integral_;
  energy_flux := energy_flux_
|}.

End PowerLaw2.

(** Table readers to run the definitions on: the energy axis is read from
    the columns [e_min] and [e_max], its centres from [e_ref] or, without
    it, as the geometric means of the edges; a column becomes a map on
    that axis. *)
Module GadfReaders.

Definition axis_from_table (t : Table) : result MapAxis :=
  match columns t !! "e_min", columns t !! "e_max" with
  | Some lo, Some hi =>
      let lo := concat lo in
      let hi := concat hi in
      let centers :=
        match columns t !! "e_ref" with
        | Some c => concat c
        | None =>
            zip_with (fun a b => PrimFloat.sqrt (PrimFloat.mul a b)) lo hi
        end in
      Ok (mkMapAxis (lo ++ option_list (last hi)) centers)
  | _, _ => Raise (ValueError "No energy axis: e_min and e_max are required")
  end.

Definition map_from_table (t : Table) (colname : string)
  : result (Map float) :=
  let* ax := axis_from_table t in
  let* col := getitem (columns t) colname in
  Ok (mkMap (mkGeom ax) col).

#[export] Instance readers : TableReaders := {|
  MapAxis_from_table := axis_from_table;
  RegionNDMap_from_table := map_from_table
|}.

End GadfReaders.

(** A fit to run the estimator on: slicing keeps the counts of the bins
    inside the range in one bin that spans it, and the fit of a group
    returns the reference fluxes of the source over that bin with a norm
    of one. *)
Module UnitFit.

Definition in_range (lo hi e1 e2 : float) : bool :=
  PrimFloat.leb lo e1 && PrimFloat.leb e2 hi.

Definition mask (g : Geom) (lo hi : float) : list (list bool) :=
  zip_with (fun e1 e2 => [in_range lo hi e1 e2])
           (edges_min (axes_energy g)) (edges_max (axes_energy g)).

Definition slice_dataset (lo hi : float) (d : Dataset) : Dataset :=
  let total :=
    match masked_sum (data (dataset_counts d))
                     (mask (geom (dataset_counts d)) lo hi) with
    | Ok s => s
    | Raise _ => 0%float
    end in
  mkDataset
    (mkMap (mkGeom (mkMapAxis [lo; hi]
                              [PrimFloat.sqrt (PrimFloat.mul lo hi)]))
           [[total]])
    None.

Definition slice (ds : Datasets) (lo hi : float) : Datasets :=
  mkDatasets (slice_dataset lo hi <$> datasets_list ds) (datasets_models ds).

Definition fit (self : FluxPointsEstimator) (ds : Datasets)
  : result (gmap string (list float)) :=
  match datasets_list ds with
  | d :: _ =>
      match edges (axes_energy (geom (dataset_counts d))) with
      | [lo; hi] =>
          let* sky := getitem (datasets_models ds) (source self) in
          let m := spectral_model sky in
          let e := PrimFloat.sqrt (PrimFloat.mul lo hi) in
          Ok (list_to_map
                [ ("e_min", [lo]); ("e_max", [hi]); ("e_ref", [e]);
                  ("ref_dnde", [PowerLaw2.evaluate_ m e]);
                  ("ref_flux", [PowerLaw2.integral_ m lo hi]);
                  ("ref_eflux", [PowerLaw2.energy_flux_ m lo hi]);
                  ("norm", [1%float]) ])
      | _ => Raise (ValueError "expected one energy bin")
      end
  | [] => Raise (ValueError "no datasets")
  end.

#[export] Instance backend : FitBackend := {|
  energy_mask := mask;
  slice_by_energy := slice;
  FluxEstimator_run := fit
|}.

End UnitFit.

(** Inputs used to run the definitions. *)
Module Examples.

Definition axis : MapAxis :=
  mkMapAxis [1%float; 10%float; 100%float]
            [PrimFloat.sqrt 10%float; PrimFloat.sqrt 1000%float].

Definition geom2 : Geom := mkGeom axis.

Definition geom1 : Geom :=
  mkGeom (mkMapAxis [1%float; 10%float] [PrimFloat.sqrt 10%float]).

(** A power law of index 2, as the default reference model is. *)
Definition model : SkyModel :=
  SkyModel_of (PowerLawSpectralModel (Some 2%float) None None).

(** Flux points over the bins [1, 10] and [10, 100] with
    [norm = [1.0, 0.5]] and [ts = [2, 5]]. *)
Definition points : FluxMaps :=
  mkFluxMaps
    (list_to_map
       [ ("norm", mkMap geom2 [[1%float]; [0.5%float]]);
         ("norm_err", mkMap geom2 [[0.25%float]; [0.125%float]]);
         ("norm_ul", mkMap geom2 [[2%float]; [4%float]]);
         ("ts", mkMap geom2 [[2%float]; [5%float]]) ])
    (Some model) ∅ None.

(** Only [norm_ul = [NaN, 3.0]] besides [norm]. *)
Definition upper_limits_only : FluxMaps :=
  mkFluxMaps
    (list_to_map
       [ ("norm", mkMap geom2 [[1%float]; [0.5%float]]);
         ("norm_ul", mkMap geom2 [[nan]; [3%float]]) ])
    (Some model) ∅ None.

(** A container with a likelihood scan of three norm values per bin. *)
Definition with_scan : FluxMaps :=
  mkFluxMaps
    (list_to_map
       [ ("norm", mkMap geom2 [[1%float]; [0.5%float]]);
         ("stat", mkMap geom2 [[3%float]; [4%float]]);
         ("stat_scan",
          mkMap geom2 [[5%float; 3%float; 6%float];
                       [7%float; 4%float; 8%float]]) ])
    (Some model) ∅ None.

(** One bin with a negative test statistic. *)
Definition negative_ts : FluxMaps :=
  mkFluxMaps
    (list_to_map
       [ ("norm", mkMap geom1 [[1%float]]);
         ("ts", mkMap geom1 [[(-1)%float]]) ])
    (Some model) ∅ None.

(** A container read from a table that has an [npred_excess] column and
    no [npred] column. *)
Definition stored_excess : FluxMaps :=
  mkFluxMaps
    (list_to_map
       [ ("norm", mkMap geom1 [[1%float]]);
         ("npred_excess", mkMap geom1 [[5%float]]) ])
    (Some model) ∅ None.

(** The same with [npred] and [npred_null] stored as well. *)
Definition stored_excess_and_npred : FluxMaps :=
  mkFluxMaps
    (list_to_map
       [ ("norm", mkMap geom1 [[1%float]]);
         ("npred_excess", mkMap geom1 [[5%float]]);
         ("npred", mkMap geom1 [[3%float]]);
         ("npred_null", mkMap geom1 [[1%float]]) ])
    (Some model) ∅ None.

(** A faint source: a power law of index 2 with amplitude [2^-1000], and
    a norm of [2^-100] in one bin. *)
Definition faint_model : SkyModel :=
  SkyModel_of (PowerLawSpectralModel (Some 2%float) (Some 0x1p-1000%float)
                                     None).

Definition faint : FluxMaps :=
  mkFluxMaps (list_to_map [ ("norm", mkMap geom1 [[0x1p-100%float]]) ])
             (Some faint_model) ∅ None.



(** A likelihood table of one bin with [loglike = 10] and no [stat]. *)
Definition loglike_table : Table :=
  mkTable
    (list_to_map
       [ ("e_min", [[1%float]]); ("e_max", [[10%float]]);
         ("e_ref", [[3%float]]);
         ("ref_dnde", [[1%float]]); ("ref_flux", [[1%float]]);
         ("ref_eflux", [[1%float]]);
         ("norm", [[1%float]]); ("loglike", [[10%float]]) ])
    {[ "SED_TYPE" := PyStr "likelihood" ]}.

(** An estimator over the edges [1, 3, 10] and one dataset of four bins. *)
Definition estimator : FluxPointsEstimator :=
  mkFluxPointsEstimator [1%float; 3%float; 10%float] "source".

Definition datasets : Datasets :=
  mkDatasets
    [ mkDataset
        (mkMap (mkGeom (mkMapAxis [1%float; 2%float; 3%float; 5%float;
                                   10%float]
                                  [1.5%float; 2.5%float; 4%float; 7%float]))
               [[4%float]; [3%float]; [2%float]; [1%float]])
        None ]
    {[ "source" := model ]}.

End Examples.


(** Whether all the required columns of an SED type are among the given
    ones. *)
Definition matches (quantities : list string) (sed_type : string) : bool :=
  match registry_get REQUIRED_COLUMNS sed_type with
  | Some required => issubset required quantities
  | None => false
  end.

(** * Properties *)

(** ** Dictionaries and stored quantities *)

Lemma elem_of_keys {V : Type} (d : gmap string V) (k : string) :
  k ∈ keys d <-> is_Some (d !! k).
Proof.
  unfold keys. rewrite list_elem_of_fmap. split.
  - intros [[k' v] [-> Hin]]. apply elem_of_map_to_list in Hin. eauto.
  - intros [v Hv]. exists (k, v). split; [done |].
    by apply elem_of_map_to_list.
Qed.

Lemma in_keys_Some {V : Type} (d : gmap string V) (k : string) (v : V) :
  d !! k = Some v -> bool_decide (k ∈ keys d) = true.
Proof. intros Hv. apply bool_decide_eq_true, elem_of_keys. eauto. Qed.

Lemma in_keys_None {V : Type} (d : gmap string V) (k : string) :
  d !! k = None -> bool_decide (k ∈ keys d) = false.
Proof.
  intros Hv. apply bool_decide_eq_false. rewrite elem_of_keys, Hv.
  by intros [? ?].
Qed.


Lemma append_cancel_l (s a b : string) : s ++ a = s ++ b -> a = b.
Proof.
  induction s as [|ch s IH]; intros Heq; [exact Heq |].
  apply IH. cbv [String.append] in Heq. fold String.append in Heq.
  by injection Heq.
Qed.

Lemma string_length_append (s a : string) :
  String.length (s ++ a) = String.length s + String.length a.
Proof.
  induction s as [|ch s IH]; [done |].
  cbv [String.append]. fold String.append. simpl. by rewrite IH.
Qed.

Lemma stored_quantity_lookup (q : string) (c : FluxMaps) :
  stored_quantity q c =
  match _data c !! q with
  | Some m => Ok m
  | None => Raise (not_defined q)
  end.
Proof.
  unfold stored_quantity, _check_quantity, available_quantities, getitem.
  destruct (_data c !! q) as [m|] eqn:E.
  - by rewrite (in_keys_Some _ _ _ E).
  - by rewrite (in_keys_None _ _ E).
Qed.

Section Accessors.
Context `{SpectralMethods}.

Lemma getattr_stored (c : FluxMaps) (q : string) :
  q ∈ stored_names ->
  getattr c q = stored_quantity q c.
Proof.
  intros Hq. vm_compute in Hq.
  repeat (apply elem_of_cons in Hq as [-> | Hq]; [reflexivity |]).
  by apply elem_of_nil in Hq.
Qed.

Lemma sqrt_ts_stored (c : FluxMaps) (m : Map float) :
  _data c !! "sqrt_ts" = Some m -> sqrt_ts c = Ok m.
Proof.
  intros Hm. unfold sqrt_ts. rewrite (in_keys_Some _ _ _ Hm).
  unfold getitem. by rewrite Hm.
Qed.

Lemma sqrt_ts_without_ts (c : FluxMaps) :
  _data c !! "sqrt_ts" = None -> _data c !! "ts" = None ->
  is_Some (_data c !! "norm") ->
  sqrt_ts c = Raise (not_defined "ts").
Proof.
  intros Hs Ht [n Hn]. unfold sqrt_ts. rewrite (in_keys_None _ _ Hs).
  unfold norm, getitem. rewrite Hn. simpl.
  unfold ts. rewrite stored_quantity_lookup, Ht. reflexivity.
Qed.

(** C5 (amended). For every container and every optional quantity other
    than [sqrt_ts] and [npred_excess], the accessor returns exactly the
    stored value when the quantity is stored and raises the
    quantity-not-defined [AttributeError] when it is not; it never returns
    [None] or NaN in its place. [sqrt_ts] returns the stored value when
    stored, and raises that error when neither it nor [ts] is stored.
    [npred_excess] is never read from storage: its accessor computes
    [npred - npred_null] and raises the error when one of the two is
    missing. *)
Theorem missing_quantity_contract (c : FluxMaps) :
  stored_names
  = [ "norm_err"; "norm_errn"; "norm_errp"; "norm_ul"; "ts"; "npred";
      "npred_null"; "stat"; "stat_null"; "niter"; "counts"; "stat_scan" ]
  /\ Forall (fun q =>
            getattr c q =
            match _data c !! q with
            | Some m => Ok m
            | None => Raise (not_defined q)
            end) stored_names
  /\ (forall m, _data c !! "sqrt_ts" = Some m -> getattr c "sqrt_ts" = Ok m)
  /\ (_data c !! "sqrt_ts" = None -> _data c !! "ts" = None ->
      is_Some (_data c !! "norm") ->
      getattr c "sqrt_ts" = Raise (not_defined "ts"))
  /\ (forall a b,
        _data c !! "npred" = Some a -> _data c !! "npred_null" = Some b ->
        shape (data a) = shape (data b) ->
        getattr c "npred_excess"
        = Ok (mkMap (geom a)
                    (zip_with (zip_with PrimFloat.sub) (data a) (data b))))
  /\ (_data c !! "npred" = None ->
      getattr c "npred_excess" = Raise (not_defined "npred"))
  /\ (is_Some (_data c !! "npred") -> _data c !! "npred_null" = None ->
      getattr c "npred_excess" = Raise (not_defined "npred_null")).
Proof.
  split; [reflexivity |].
  split; [| split; [| split; [| split; [| split]]]].
  - apply Forall_forall. intros q Hq.
    rewrite (getattr_stored c q Hq). apply stored_quantity_lookup.
  - intros m Hm. by apply sqrt_ts_stored.
  - intros Hs Ht Hn. by apply sqrt_ts_without_ts.
  - intros a b Ha Hb Hshape.
    change (getattr c "npred_excess") with (npred_excess c).
    unfold npred_excess, _check_quantity, available_quantities.
    rewrite (in_keys_Some _ _ _ Ha), (in_keys_Some _ _ _ Hb). simpl.
    unfold getitem. rewrite Ha, Hb. simpl.
    unfold Map_sub, np.elementwise. by rewrite decide_True.
  - intros Hn. change (getattr c "npred_excess") with (npred_excess c).
    unfold npred_excess, _check_quantity, available_quantities.
    by rewrite (in_keys_None _ _ Hn).
  - intros [m Hm] Hn. change (getattr c "npred_excess") with (npred_excess c).
    unfold npred_excess, _check_quantity, available_quantities.
    rewrite (in_keys_Some _ _ _ Hm), (in_keys_None _ _ Hn). reflexivity.
Qed.
End Accessors.

(** ** Floating-point facts *)

Lemma Prim2SF_zero : Prim2SF 0%float = S754_zero false.
Proof. reflexivity. Qed.

Lemma ltb_zero_negative (v : float) :
  PrimFloat.ltb v 0%float = true ->
  Prim2SF v = S754_infinity true \/
  exists m e, Prim2SF v = S754_finite true m e.
Proof.
  rewrite ltb_spec, Prim2SF_zero. unfold SFltb, SFcompare.
  destruct (Prim2SF v) as [s|s| |s m e]; try discriminate.
  - destruct s; [auto | discriminate].
  - destruct s; [eauto | discriminate].
Qed.

Lemma sqrt_negative_is_nan (v : float) :
  PrimFloat.ltb v 0%float = true ->
  PrimFloat.is_nan (PrimFloat.sqrt v) = true.
Proof.
  intros Hv. unfold PrimFloat.is_nan.
  rewrite FloatAxioms.eqb_spec, sqrt_spec.
  destruct (ltb_zero_negative v Hv) as [-> | (m & e & ->)]; reflexivity.
Qed.

Lemma opp_is_nan (x : float) :
  PrimFloat.is_nan x = true -> PrimFloat.is_nan (PrimFloat.opp x) = true.
Proof.
  unfold PrimFloat.is_nan. rewrite !FloatAxioms.eqb_spec, opp_spec.
  destruct (Prim2SF x) as [s|s| |s m e]; simpl; try reflexivity.
  - discriminate.
  - destruct s; discriminate.
  - unfold SFeqb, SFcompare.
    destruct s; rewrite ?Z.compare_refl, ?Pos.compare_cont_refl; simpl;
      discriminate.
Qed.

Lemma negative_not_positive (x : float) :
  PrimFloat.ltb x 0%float = true -> PrimFloat.ltb 0%float x = false.
Proof.
  intros Hx. rewrite ltb_spec, Prim2SF_zero.
  destruct (ltb_zero_negative x Hx) as [-> | (m & e & ->)]; reflexivity.
Qed.

(** ** Arrays *)

Lemma item_fmap {A B : Type} (f : A -> B) (a : ndarray A) (i j : nat) :
  item (fmap (M := list) f <$> a) i j = f <$> item a i j.
Proof.
  unfold item. rewrite list_lookup_fmap.
  destruct (a !! i) as [row|]; simpl; [| done].
  by rewrite list_lookup_fmap.
Qed.

Lemma shape_fmap {A B : Type} (f : A -> B) (a : ndarray A) :
  shape (fmap (M := list) f <$> a) = shape a.
Proof.
  unfold shape. induction a as [|row a IH]; [done |].
  rewrite !fmap_cons. f_equal; [apply length_fmap | apply IH].
Qed.

Lemma where_row_lookup (c : list bool) (x y : list float) (j : nat) :
  np.where_row c x y !! j =
  c !! j ≫= fun b : bool => x !! j ≫= fun u : float =>
  y !! j ≫= fun v : float => Some (if b then u else v).
Proof.
  unfold np.where_row. rewrite lookup_zip_with.
  destruct (c !! j) as [b|]; simpl; [| done].
  rewrite lookup_zip_with.
  destruct (x !! j) as [u|]; simpl; [| done].
  by destruct (y !! j).
Qed.

Lemma where_item (c : ndarray bool) (x y d : ndarray float) (i j : nat) :
  np.where_ c x y = Ok d ->
  item d i j =
  item c i j ≫= fun b : bool => item x i j ≫= fun u : float =>
  item y i j ≫= fun v : float => Some (if b then u else v).
Proof.
  unfold np.where_. case_decide as Hs; [| discriminate].
  intros [= <-]. unfold item. rewrite lookup_zip_with.
  destruct (c !! i) as [cr|]; simpl; [| done].
  rewrite lookup_zip_with.
  destruct (x !! i) as [xr|]; simpl.
  - destruct (y !! i) as [yr|]; simpl.
    + rewrite where_row_lookup. done.
    + destruct (cr !! j); simpl; [| done]. by destruct (xr !! j).
  - by destruct (cr !! j).
Qed.

Lemma shape_zip_with_same {A B C : Type} (f : list A -> list B -> list C)
    (x : ndarray A) (y : ndarray B) :
  shape x = shape y ->
  (forall r s, length r = length s -> length (f r s) = length r) ->
  shape (zip_with f x y) = shape x.
Proof.
  unfold shape. intros Hs Hf. revert y Hs.
  induction x as [|r x IH]; intros [|s y] Hs; simplify_eq/=; [done |].
  f_equal; [by apply Hf | by apply IH].
Qed.

Lemma where_shape (c : ndarray bool) (x y d : ndarray float) :
  np.where_ c x y = Ok d -> shape d = shape c.
Proof.
  unfold np.where_. case_decide as Hs; [| discriminate].
  intros [= <-]. destruct Hs as [H1 H2]. unfold shape in *.
  revert x y H1 H2.
  induction c as [|cr c IH]; intros [|xr x] [|yr y] H1 H2;
    simplify_eq/=; [done |].
  f_equal.
  - unfold np.where_row. rewrite length_zip_with, length_zip_with. lia.
  - by apply IH.
Qed.

(** ** Upper limits *)

(** C3. [is_ul] follows a three-way precedence: with both [ts] and
    [norm_ul] stored, a bin is an upper limit iff [ts < ts_threshold_ul]
    (4 unless [meta] says otherwise); with [norm_ul] stored and no [ts], iff
    [norm_ul] is finite; without [norm_ul], iff [norm] is NaN. With
    [ts = [2, 5]] and threshold 4 the result is [[True, False]]; with
    [norm_ul = [NaN, 3.0]] and no [ts] it is [[False, True]]. *)
Theorem is_ul_policy (c : FluxMaps) (n : Map float) :
  _data c !! "norm" = Some n ->
  (forall t u x,
      _data c !! "ts" = Some t -> _data c !! "norm_ul" = Some u ->
      ts_threshold_ul c = PyNum x ->
      is_ul c =
      Ok (mkMap (geom n)
                (fmap (M := list) (fun v => PrimFloat.ltb v x) <$> data t)))
  /\ (forall u,
        _data c !! "ts" = None -> _data c !! "norm_ul" = Some u ->
        is_ul c =
        Ok (mkMap (geom n) (fmap (M := list) PrimFloat.is_finite <$> data u)))
  /\ (_data c !! "norm_ul" = None ->
      is_ul c =
      Ok (mkMap (geom n) (fmap (M := list) PrimFloat.is_nan <$> data n)))
  /\ (meta c !! "ts_threshold_ul" = None ->
      ts_threshold_ul c = PyNum 4%float)
  /\ (forall t u,
        _data c !! "ts" = Some t -> _data c !! "norm_ul" = Some u ->
        ts_threshold_ul c = PyNum 4%float ->
        data t = [[2%float]; [5%float]] ->
        is_ul c = Ok (mkMap (geom n) [[true]; [false]]))
  /\ (forall u,
        _data c !! "ts" = None -> _data c !! "norm_ul" = Some u ->
        data u = [[nan]; [3%float]] ->
        is_ul c = Ok (mkMap (geom n) [[false]; [true]])).
Proof.
  intros Hn.
  assert (Hboth : forall t u x,
             _data c !! "ts" = Some t -> _data c !! "norm_ul" = Some u ->
             ts_threshold_ul c = PyNum x ->
             is_ul c =
             Ok (mkMap (geom n)
                   (fmap (M := list) (fun v => PrimFloat.ltb v x) <$> data t))).
  { intros t u x Ht Hu Hx. unfold is_ul, norm, getitem. rewrite Hn. simpl.
    rewrite (in_keys_Some _ _ _ Ht), (in_keys_Some _ _ _ Hu). simpl.
    unfold ts. rewrite stored_quantity_lookup, Ht. simpl.
    rewrite Hx. reflexivity. }
  assert (Hul : forall u,
             _data c !! "ts" = None -> _data c !! "norm_ul" = Some u ->
             is_ul c =
             Ok (mkMap (geom n)
                   (fmap (M := list) PrimFloat.is_finite <$> data u))).
  { intros u Ht Hu. unfold is_ul, norm, getitem. rewrite Hn. simpl.
    rewrite (in_keys_None _ _ Ht), (in_keys_Some _ _ _ Hu). simpl.
    unfold norm_ul. rewrite stored_quantity_lookup, Hu. reflexivity. }
  repeat split.
  - exact Hboth.
  - exact Hul.
  - intros Hu. unfold is_ul, norm, getitem. rewrite Hn. simpl.
    rewrite (in_keys_None _ _ Hu), andb_false_r. reflexivity.
  - intros Hm. unfold ts_threshold_ul. by rewrite Hm.
  - intros t u Ht Hu Hx Hd. rewrite (Hboth t u _ Ht Hu Hx), Hd. reflexivity.
  - intros u Ht Hu Hd. rewrite (Hul u Ht Hu), Hd. reflexivity.
Qed.

(** ** Signed square root of the test statistic *)

Section SqrtTs.
Context `{SpectralMethods}.

Lemma sqrt_ts_total (c : FluxMaps) (n t : Map float) :
  _data c !! "sqrt_ts" = None ->
  _data c !! "norm" = Some n ->
  _data c !! "ts" = Some t ->
  shape (data n) = shape (data t) ->
  exists m, sqrt_ts c = Ok m.
Proof.
  intros Hs Hn Ht Hshape.
  unfold sqrt_ts. rewrite (in_keys_None _ _ Hs).
  unfold FluxMaps_geom, norm, getitem. rewrite Hn. simpl.
  unfold ts. rewrite stored_quantity_lookup, Ht. simpl.
  unfold np.where_. rewrite decide_True; [simpl; eauto |].
  unfold np.greater, np.sqrt, np.negative. by rewrite !shape_fmap.
Qed.

(** C4 (amended). When [ts] is stored and [sqrt_ts] is not, [sqrt_ts]
    never raises on maps of one shape, and per bin it is [sqrt(ts)] where
    [norm > 0], [-sqrt(ts)] where [norm < 0], and NaN wherever [ts] is
    negative: [ts] is not clipped at zero. *)
Theorem sqrt_ts_derived (c : FluxMaps) (n t : Map float) :
  _data c !! "sqrt_ts" = None ->
  _data c !! "norm" = Some n ->
  _data c !! "ts" = Some t ->
  shape (data n) = shape (data t) ->
  exists m,
    sqrt_ts c = Ok m /\ getattr c "sqrt_ts" = Ok m /\
    geom m = geom n /\ shape (data m) = shape (data n) /\
    forall i j x v,
      item (data n) i j = Some x -> item (data t) i j = Some v ->
      exists r,
        item (data m) i j = Some r /\
        (PrimFloat.ltb 0%float x = true -> r = PrimFloat.sqrt v) /\
        (PrimFloat.ltb x 0%float = true ->
         r = PrimFloat.opp (PrimFloat.sqrt v)) /\
        (PrimFloat.ltb v 0%float = true -> PrimFloat.is_nan r = true).
Proof.
  intros Hs Hn Ht Hshape.
  change (getattr c "sqrt_ts") with (sqrt_ts c).
  unfold sqrt_ts. rewrite (in_keys_None _ _ Hs).
  unfold FluxMaps_geom, norm, getitem. rewrite Hn. simpl.
  unfold ts. rewrite stored_quantity_lookup, Ht. simpl.
  destruct (np.where_ (np.greater (data n) 0) (np.sqrt (data t))
              (np.negative (np.sqrt (data t)))) as [d|e] eqn:Hw.
  2:{ exfalso. unfold np.where_ in Hw. case_decide as Hd; [discriminate |].
      apply Hd. unfold np.greater, np.sqrt, np.negative.
      rewrite !shape_fmap. done. }
  simpl. exists (mkMap (geom n) d). repeat split.
  - simpl. rewrite (where_shape _ _ _ _ Hw). unfold np.greater.
    apply shape_fmap.
  - intros i j x v Hx Hv. simpl.
    rewrite (where_item _ _ _ _ i j Hw).
    unfold np.greater, np.sqrt, np.negative.
    rewrite !item_fmap, Hx, Hv. simpl.
    eexists. split; [reflexivity |]. repeat split.
    + by intros ->.
    + intros Hneg. by rewrite (negative_not_positive x Hneg).
    + intros Hneg. destruct (PrimFloat.ltb 0 x).
      * by apply sqrt_negative_is_nan.
      * by apply opp_is_nan, sqrt_negative_is_nan.
Qed.

End SqrtTs.

(** ** Derived flux quantities *)

Lemma per_energy_Ok (op : float -> float -> float) (a : ndarray float)
    (f : list float) :
  length a = length f ->
  np.per_energy op a f =
  Ok (zip_with (fun (row : list float) (fi : float) =>
                  (fun v => op v fi) <$> row) a f).
Proof. intros Hl. unfold np.per_energy. by rewrite decide_True. Qed.

Lemma lookup_removelast {A : Type} (l : list A) (i : nat) :
  S i < length l -> removelast l !! i = l !! i.
Proof.
  revert i. induction l as [|x l IH]; intros i Hi; simpl in *; [lia |].
  destruct l as [|y l]; simpl in *; [lia |].
  destruct i as [|i]; [done |]. simpl. apply IH. simpl. lia.
Qed.

Lemma length_removelast' {A : Type} (l : list A) :
  length (removelast l) = pred (length l).
Proof.
  induction l as [|x l IH]; [done |].
  destruct l as [|y l]; [done |]. simpl in *. by rewrite IH.
Qed.

Lemma length_tail' {A : Type} (l : list A) :
  length (tail l) = pred (length l).
Proof. by destruct l. Qed.

Section Derived.
Context `{SpectralMethods}.

Lemma times_ref_Ok (quantity : FluxMaps -> result (Map float))
    (ref : FluxMaps -> result (list float)) (c : FluxMaps)
    (q : Map float) (r : list float) :
  quantity c = Ok q -> ref c = Ok r -> length (data q) = length r ->
  times_ref quantity ref c =
  Ok (mkMap (geom q)
            (zip_with (fun (row : list float) (fi : float) =>
                         (fun v => PrimFloat.mul v fi) <$> row) (data q) r)).
Proof.
  intros Hq Hr Hl. unfold times_ref, Map_mul. rewrite Hq, Hr. simpl.
  by rewrite per_energy_Ok.
Qed.

Lemma energy_axis_norm (c : FluxMaps) (n : Map float) :
  _data c !! "norm" = Some n -> energy_axis c = Ok (axes_energy (geom n)).
Proof.
  intros Hn. unfold energy_axis, FluxMaps_geom, norm, getitem.
  by rewrite Hn.
Qed.

Lemma reference_spectral_model_Some (c : FluxMaps) (rm : SkyModel) :
  _reference_model c = Some rm ->
  reference_spectral_model c = Ok (spectral_model rm).
Proof. intros Hr. unfold reference_spectral_model. by rewrite Hr. Qed.

Lemma family_ref_bins (c : FluxMaps) (n : Map float) (rm : SkyModel)
    (family : string) :
  _data c !! "norm" = Some n ->
  _reference_model c = Some rm ->
  length (edges (axes_energy (geom n)))
  = S (length (center (axes_energy (geom n)))) ->
  family ∈ sed_families ->
  exists ref r,
    family_ref family = Some ref /\ ref c = Ok r /\
    length r = length (center (axes_energy (geom n))) /\
    reference_fluxes (spectral_model rm) (axes_energy (geom n))
      !! ("ref_" ++ family) = Some r /\
    forall i e_ref e_min e_max,
      center (axes_energy (geom n)) !! i = Some e_ref ->
      edges (axes_energy (geom n)) !! i = Some e_min ->
      edges (axes_energy (geom n)) !! S i = Some e_max ->
      exists f,
        reference_factor family (spectral_model rm) e_ref e_min e_max
        = Some f /\ r !! i = Some f.
Proof.
  intros Hn Hr Hlen Hfam.
  pose proof (energy_axis_norm c n Hn) as Hax.
  pose proof (reference_spectral_model_Some c rm Hr) as Hm.
  set (ax := axes_energy (geom n)) in *.
  assert (Hbin : forall (g : float -> float -> float) i e_min e_max,
             edges ax !! i = Some e_min -> edges ax !! S i = Some e_max ->
             zip_with g (edges_min ax) (edges_max ax) !! i
             = Some (g e_min e_max)).
  { intros g i e_min e_max H1 H2. rewrite lookup_zip_with.
    unfold edges_min, edges_max.
    rewrite lookup_removelast by (apply lookup_lt_Some in H2; lia).
    rewrite H1. simpl. rewrite lookup_tail, H2. done. }
  assert (Hbins : forall (g : float -> float -> float),
             length (zip_with g (edges_min ax) (edges_max ax))
             = length (center ax)).
  { intros g. rewrite length_zip_with. unfold edges_min, edges_max.
    rewrite length_removelast', length_tail', Hlen. simpl. lia. }
  unfold sed_families in Hfam.
  repeat (apply elem_of_cons in Hfam as [-> | Hfam]).
  - exists dnde_ref, (evaluate (spectral_model rm) <$> center ax).
    split; [done |]. split.
    { unfold dnde_ref. by rewrite Hm, Hax. }
    split; [by rewrite length_fmap |]. split; [reflexivity |].
    intros i e_ref e_min e_max Hc _ _. eexists. split; [reflexivity |].
    by rewrite list_lookup_fmap, Hc.
  - eexists e2dnde_ref, _. split; [done |]. split.
    { unfold e2dnde_ref. rewrite Hax. simpl. rewrite Hm. reflexivity. }
    split.
    { rewrite length_zip_with, !length_fmap. lia. }
    split; [reflexivity |].
    intros i e_ref e_min e_max Hc _ _. eexists. split; [reflexivity |].
    by rewrite lookup_zip_with, !list_lookup_fmap, Hc.
  - eexists flux_ref, _. split; [done |]. split.
    { unfold flux_ref. rewrite Hax. simpl. rewrite Hm. reflexivity. }
    split; [apply Hbins |]. split; [reflexivity |].
    intros i e_ref e_min e_max _ H1 H2. eexists. split; [reflexivity |].
    by apply Hbin.
  - eexists eflux_ref, _. split; [done |]. split.
    { unfold eflux_ref. rewrite Hax. simpl. rewrite Hm. reflexivity. }
    split; [apply Hbins |]. split; [reflexivity |].
    intros i e_ref e_min e_max _ H1 H2. eexists. split; [reflexivity |].
    by apply Hbin.
  - by apply elem_of_nil in Hfam.
Qed.

Lemma getattr_family (c : FluxMaps) (family variant : string)
    (ref : FluxMaps -> result (list float)) :
  family ∈ sed_families -> variant ∈ variants ->
  family_ref family = Some ref ->
  getattr c (family ++ variant)
  = times_ref (fun c' => getattr c' ("norm" ++ variant)) ref c.
Proof.
  unfold sed_families, variants. intros Hf Hv.
  repeat (apply elem_of_cons in Hf as [-> | Hf]);
    [ | | | | by apply elem_of_nil in Hf];
    (repeat (apply elem_of_cons in Hv as [-> | Hv]);
     [ | | | | | by apply elem_of_nil in Hv]);
    intros [= <-]; reflexivity.
Qed.

End Derived.

Section DerivedQuantities.
Context `{SpectralMethods}.

(** C2. Every derived flux quantity is the stored norm-family quantity
    times the reference-flux factor of its representation: for each family
    ([dnde], [e2dnde], [flux], [eflux]) and each variant (the value,
    [_err], [_errn], [_errp], [_ul]), the accessor returns, in every energy
    bin, the stored [norm] quantity of that variant times the family's
    reference factor of the bin. In particular, for [norm = [1.0, 0.5]]
    over the bins [1, 10] and [10, 100], [flux] is
    [[1.0 * integral(1, 10), 0.5 * integral(10, 100)]]. *)
Theorem derived_quantities (c : FluxMaps) (n : Map float) (rm : SkyModel) :
  _data c !! "norm" = Some n ->
  _reference_model c = Some rm ->
  length (edges (axes_energy (geom n)))
  = S (length (center (axes_energy (geom n)))) ->
  (forall family variant q,
      family ∈ sed_families -> variant ∈ variants ->
      _data c !! ("norm" ++ variant) = Some q ->
      length (data q) = length (center (axes_energy (geom n))) ->
      exists m,
        getattr c (family ++ variant) = Ok m /\
        geom m = geom q /\
        length (data m) = length (data q) /\
        forall i row e_ref e_min e_max,
          data q !! i = Some row ->
          center (axes_energy (geom n)) !! i = Some e_ref ->
          edges (axes_energy (geom n)) !! i = Some e_min ->
          edges (axes_energy (geom n)) !! S i = Some e_max ->
          exists f,
            reference_factor family (spectral_model rm) e_ref e_min e_max
            = Some f /\
            data m !! i = Some ((fun v => PrimFloat.mul v f) <$> row))
  /\ (forall e1 e2,
        data n = [[1%float]; [0.5%float]] ->
        edges (axes_energy (geom n)) = [1%float; 10%float; 100%float] ->
        center (axes_energy (geom n)) = [e1; e2] ->
        flux c =
        Ok (mkMap (geom n)
              [[PrimFloat.mul 1%float
                  (integral (spectral_model rm) 1%float 10%float)];
               [PrimFloat.mul 0.5%float
                  (integral (spectral_model rm) 10%float 100%float)]])).
Proof.
  intros Hn Hr Hlen.
  assert (Hmain : forall family variant q,
      family ∈ sed_families -> variant ∈ variants ->
      _data c !! ("norm" ++ variant) = Some q ->
      length (data q) = length (center (axes_energy (geom n))) ->
      exists m,
        getattr c (family ++ variant) = Ok m /\
        geom m = geom q /\
        length (data m) = length (data q) /\
        forall i row e_ref e_min e_max,
          data q !! i = Some row ->
          center (axes_energy (geom n)) !! i = Some e_ref ->
          edges (axes_energy (geom n)) !! i = Some e_min ->
          edges (axes_energy (geom n)) !! S i = Some e_max ->
          exists f,
            reference_factor family (spectral_model rm) e_ref e_min e_max
            = Some f /\
            data m !! i = Some ((fun v => PrimFloat.mul v f) <$> row)).
  { intros family variant q Hf Hv Hq Hlq.
    destruct (family_ref_bins c n rm family Hn Hr Hlen Hf)
      as (ref & r & Href & Hrc & Hlr & _ & Hbins).
    assert (Hget : getattr c ("norm" ++ variant) = Ok q).
    { unfold variants in Hv.
      apply elem_of_cons in Hv as [-> | Hv].
      - change ("norm" ++ "") with "norm" in Hq.
        change (getattr c ("norm" ++ "")) with (norm c).
        unfold norm, getitem. by rewrite Hq.
      - assert (Hs : ("norm" ++ variant) ∈ stored_names).
        { repeat (apply elem_of_cons in Hv as [-> | Hv];
                  [vm_compute; repeat constructor |]).
          by apply elem_of_nil in Hv. }
        rewrite (getattr_stored c _ Hs), stored_quantity_lookup.
        by rewrite Hq. }
    rewrite (getattr_family c family variant ref Hf Hv Href).
    rewrite (times_ref_Ok _ ref c q r Hget Hrc) by lia.
    eexists. split; [reflexivity |]. simpl. split; [done |]. split.
    { rewrite length_zip_with. lia. }
    intros i row e_ref e_min e_max Hrow Hc H1 H2.
    destruct (Hbins i e_ref e_min e_max Hc H1 H2) as (f & Hf1 & Hf2).
    exists f. split; [done |].
    rewrite lookup_zip_with, Hrow. simpl. by rewrite Hf2. }
  split; [exact Hmain |].
  intros e1 e2 Hd He Hc.
  destruct (Hmain "flux" "" n) as (m & Hm & Hg & Hl & Hbins).
  { vm_compute. repeat constructor. }
  { vm_compute. repeat constructor. }
  { exact Hn. }
  { by rewrite Hd, Hc. }
  change (getattr c ("flux" ++ "")) with (flux c) in Hm. rewrite Hm.
  f_equal. destruct m as [g d]. simpl in *. subst g. f_equal.
  rewrite Hd, He, Hc in Hbins. rewrite Hd in Hl. simpl in Hl.
  destruct (Hbins 0 [1%float] e1 1%float 10%float) as (f0 & Hf0 & Hd0);
    try reflexivity.
  destruct (Hbins 1 [0.5%float] e2 10%float 100%float) as (f1 & Hf1 & Hd1);
    try reflexivity.
  unfold reference_factor in Hf0, Hf1. simpl in Hf0, Hf1.
  injection Hf0 as <-. injection Hf1 as <-.
  destruct d as [|r0 [|r1 [|r2 d]]]; simplify_eq/=. reflexivity.
Qed.

End DerivedQuantities.

(** ** Loops that fill a dict *)

Lemma for_each_ext {A S : Type} (f g : S -> A -> result S) (l : list A)
    (s : S) :
  (forall s' x, x ∈ l -> f s' x = g s' x) ->
  for_each f l s = for_each g l s.
Proof.
  revert s. induction l as [|x l IH]; intros s Hfg; [done |].
  simpl. rewrite Hfg by apply list_elem_of_here.
  destruct (g s x) as [s'|e]; simpl; [| done].
  apply IH. intros s'' y Hy. apply Hfg. by apply list_elem_of_further.
Qed.

Lemma fill_lookup {K V : Type} `{EqDecision K} (g : K -> result (option V))
    (rename : K -> string) (l : list K) (d : gmap string V) :
  (forall key, key ∈ l -> exists o, g key = Ok o) ->
  (forall k1 k2, k1 ∈ l -> k2 ∈ l -> rename k1 = rename k2 -> k1 = k2) ->
  exists d',
    fill g rename l d = Ok d' /\
    (forall key o, key ∈ l -> g key = Ok o ->
                   d' !! rename key = from_option Some (d !! rename key) o) /\
    (forall k, (forall key, key ∈ l -> rename key <> k) -> d' !! k = d !! k).
Proof.
  revert d. induction l as [|a l IH]; intros d Hg Hinj.
  - exists d. split; [done |]. split; [| done].
    intros key o Hk. by apply elem_of_nil in Hk.
  - destruct (Hg a) as [oa Hoa]; [apply list_elem_of_here |].
    set (d1 := match oa with Some v => <[rename a := v]> d | None => d end).
    destruct (IH d1) as (d' & Hd' & Hin & Hout).
    { intros key Hk. apply Hg. by apply list_elem_of_further. }
    { intros k1 k2 H1 H2. apply Hinj; by apply list_elem_of_further. }
    exists d'. split.
    { unfold fill in *. simpl. rewrite Hoa.
      destruct oa as [v|]; simpl; exact Hd'. }
    assert (Hd1 : forall k, k <> rename a -> d1 !! k = d !! k).
    { intros k Hk. unfold d1. destruct oa; [| done].
      by rewrite lookup_insert_ne. }
    assert (Hd1a : d1 !! rename a = from_option Some (d !! rename a) oa).
    { unfold d1. destruct oa; simpl; [| done]. by rewrite lookup_insert_eq. }
    split.
    + intros key o Hk Ho.
      destruct (decide (key ∈ l)) as [Hl | Hl].
      * rewrite (Hin key o Hl Ho).
        destruct (decide (key = a)) as [-> | Hne].
        -- rewrite Hd1a. rewrite Hoa in Ho. injection Ho as <-.
           by destruct oa.
        -- rewrite Hd1; [done |]. intros Heq. apply Hne.
           apply Hinj; [by apply list_elem_of_further | apply list_elem_of_here
                       | done].
      * apply elem_of_cons in Hk as [-> | Hk]; [| done].
        rewrite Hoa in Ho. injection Ho as <-.
        rewrite Hout; [done |].
        intros key Hkey Heq. apply Hl.
        assert (key = a) as ->; [| done].
        apply Hinj; [by apply list_elem_of_further | apply list_elem_of_here
                    | done].
    + intros k Hk. rewrite Hout.
      * apply Hd1. intros ->. by apply (Hk a (list_elem_of_here _ _)).
      * intros key Hkey. apply Hk. by apply list_elem_of_further.
Qed.

Lemma fill_Ok_inv {K V : Type} (g : K -> result (option V))
    (rename : K -> string) (l : list K) (d d' : gmap string V) :
  fill g rename l d = Ok d' ->
  forall key, key ∈ l -> exists o, g key = Ok o.
Proof.
  unfold fill. revert d. induction l as [|a l IH]; intros d Hd key Hk.
  - by apply elem_of_nil in Hk.
  - simpl in Hd. destruct (g a) as [oa|e] eqn:Hga; [| done].
    apply elem_of_cons in Hk as [-> | Hk]; [eauto |].
    destruct oa; simpl in Hd; by apply (IH _ Hd).
Qed.

Lemma foldl_copy_lookup {V : Type} (maps : gmap string V)
    (l : list string) (d : gmap string V) (k : string) :
  foldl (fun (d : gmap string V) key =>
           match maps !! key with
           | Some m => <[key := m]> d
           | None => d
           end) d l !! k
  = if decide (k ∈ l)
    then from_option Some (d !! k) (maps !! k)
    else d !! k.
Proof.
  revert d. induction l as [|a l IH]; intros d; [done |].
  simpl. rewrite IH.
  destruct (decide (k = a)) as [-> | Hne].
  - rewrite (decide_True (P := a ∈ a :: l)) by apply list_elem_of_here.
    destruct (maps !! a) as [m|] eqn:Hm; simpl.
    + rewrite lookup_insert_eq. by case_decide.
    + by case_decide.
  - assert (Hd : (match maps !! a with
                  | Some m => <[a := m]> d
                  | None => d
                  end) !! k = d !! k).
    { destruct (maps !! a); [| done]. by rewrite lookup_insert_ne. }
    rewrite Hd.
    destruct (decide (k ∈ l)) as [Hl | Hl].
    + by rewrite decide_True by by apply list_elem_of_further.
    + rewrite decide_False; [done |].
      intros Hk. apply elem_of_cons in Hk as [? | ?]; done.
Qed.

(** ** Round trip through the SED representations *)

Lemma shape_length {A B : Type} (a : ndarray A) (b : ndarray B) :
  shape a = shape b -> length a = length b.
Proof.
  unfold shape. intros Hs. apply (f_equal length) in Hs.
  by rewrite !length_fmap in Hs.
Qed.

Section RoundTrip.
Context `{SpectralMethods}.

Lemma getattr_or_None_stored (c : FluxMaps) (q : string) :
  q ∈ stored_names -> getattr_or_None c q = Ok (_data c !! q).
Proof.
  intros Hq. unfold getattr_or_None.
  rewrite (getattr_stored c q Hq), stored_quantity_lookup.
  by destruct (_data c !! q).
Qed.

Lemma getattr_or_None_norm (c : FluxMaps) (n : Map float) :
  _data c !! "norm" = Some n -> getattr_or_None c "norm" = Ok (Some n).
Proof.
  intros Hn. unfold getattr_or_None.
  change (getattr c "norm") with (norm c). unfold norm, getitem.
  by rewrite Hn.
Qed.

Lemma getattr_or_None_sqrt_ts (c : FluxMaps) (n : Map float)
    (rm : SkyModel) :
  well_formed c n rm ->
  exists o, getattr_or_None c "sqrt_ts" = Ok o /\
            forall m, _data c !! "sqrt_ts" = Some m -> o = Some m.
Proof.
  intros (Hn & _ & _ & _ & Hshape). unfold getattr_or_None.
  destruct (_data c !! "sqrt_ts") as [m|] eqn:Hs.
  - change (getattr c "sqrt_ts") with (sqrt_ts c).
    rewrite (sqrt_ts_stored c m Hs). eauto.
  - destruct (_data c !! "ts") as [t|] eqn:Ht.
    + destruct (sqrt_ts_total c n t Hs Hn Ht) as (m & Hm).
      { symmetry. by apply (Hshape "ts"). }
      change (getattr c "sqrt_ts") with (sqrt_ts c).
      rewrite Hm. exists (Some m). split; [done | intros ? [=]].
    + change (getattr c "sqrt_ts") with (sqrt_ts c).
      rewrite (sqrt_ts_without_ts c Hs Ht) by eauto.
      exists None. split; [done | intros ? [=]].
Qed.

Lemma getattr_or_None_npred_excess (c : FluxMaps) (n : Map float)
    (rm : SkyModel) :
  well_formed c n rm ->
  exists o, getattr_or_None c "npred_excess" = Ok o.
Proof.
  intros (Hn & _ & _ & _ & Hshape). unfold getattr_or_None.
  change (getattr c "npred_excess") with (npred_excess c).
  unfold npred_excess, _check_quantity, available_quantities.
  destruct (_data c !! "npred") as [a|] eqn:Ha.
  2:{ rewrite (in_keys_None _ _ Ha). simpl. eauto. }
  rewrite (in_keys_Some _ _ _ Ha). simpl.
  destruct (_data c !! "npred_null") as [b|] eqn:Hb.
  2:{ rewrite (in_keys_None _ _ Hb). simpl. eauto. }
  rewrite (in_keys_Some _ _ _ Hb). simpl.
  unfold getitem. rewrite Ha, Hb. simpl.
  unfold Map_sub, np.elementwise. rewrite decide_True; [simpl; eauto |].
  rewrite (Hshape "npred" a), (Hshape "npred_null" b); done.
Qed.

Lemma getattr_or_None_common (c : FluxMaps) (n : Map float) (rm : SkyModel)
    (k : string) :
  well_formed c n rm ->
  k ∈ OPTIONAL_QUANTITIES_COMMON ->
  exists o, getattr_or_None c k = Ok o /\
            (k <> "npred_excess" ->
             forall m, _data c !! k = Some m -> o = Some m).
Proof.
  intros Hwf Hk. unfold OPTIONAL_QUANTITIES_COMMON in Hk.
  assert (Hst : k ∈ stored_names -> exists o,
               getattr_or_None c k = Ok o /\
               (k <> "npred_excess" ->
                forall m, _data c !! k = Some m -> o = Some m)).
  { intros Hs. rewrite (getattr_or_None_stored c k Hs). eauto. }
  repeat (apply elem_of_cons in Hk as [-> | Hk]);
    try solve [apply Hst; vm_compute; repeat constructor].
  - destruct (getattr_or_None_sqrt_ts c n rm Hwf) as (o & Ho & Hm). eauto.
  - destruct (getattr_or_None_npred_excess c n rm Hwf) as (o & Ho).
    exists o. split; [done |]. intros Hne. by destruct Hne.
  - by apply elem_of_nil in Hk.
Qed.

Lemma getattr_or_None_family (c : FluxMaps) (n : Map float) (rm : SkyModel)
    (family variant : string) (ref : FluxMaps -> result (list float))
    (r : list float) :
  well_formed c n rm ->
  family ∈ sed_families -> variant ∈ variants ->
  family_ref family = Some ref -> ref c = Ok r ->
  length r = length (center (axes_energy (geom n))) ->
  getattr_or_None c (family ++ variant)
  = Ok (scale_map PrimFloat.mul r <$> _data c !! ("norm" ++ variant)).
Proof.
  intros (Hn & _ & _ & Hln & Hshape) Hf Hv Href Hr Hlr.
  unfold getattr_or_None.
  rewrite (getattr_family c family variant ref Hf Hv Href).
  assert (Hget : getattr c ("norm" ++ variant)
                 = match _data c !! ("norm" ++ variant) with
                   | Some q => Ok q
                   | None => Raise (not_defined ("norm" ++ variant))
                   end).
  { unfold variants in Hv. apply elem_of_cons in Hv as [-> | Hv].
    - change ("norm" ++ "") with "norm".
      change (getattr c "norm") with (norm c). unfold norm, getitem.
      by rewrite Hn.
    - assert (Hs : ("norm" ++ variant) ∈ stored_names).
      { repeat (apply elem_of_cons in Hv as [-> | Hv];
                [vm_compute; repeat constructor |]).
        by apply elem_of_nil in Hv. }
      by rewrite (getattr_stored c _ Hs), stored_quantity_lookup. }
  destruct (_data c !! ("norm" ++ variant)) as [q|] eqn:Hq.
  - rewrite (times_ref_Ok _ ref c q r Hget Hr); [done |].
    rewrite Hlr, <- Hln. apply shape_length, (Hshape ("norm" ++ variant)).
    + unfold variants in Hv.
      repeat (apply elem_of_cons in Hv as [-> | Hv]; [done |]).
      by apply elem_of_nil in Hv.
    + done.
  - unfold times_ref. rewrite Hget. reflexivity.
Qed.

Lemma to_maps_fill (c : FluxMaps) (sed_type : string) :
  to_maps c sed_type
  = let* quantities := all_quantities sed_type in
    fill (getattr_or_None c) id quantities ∅.
Proof.
  unfold to_maps, fill. destruct (all_quantities sed_type) as [qs|e]; [| done].
  simpl. apply for_each_ext. intros maps q _.
  destruct (getattr_or_None c q) as [[m|]|e]; reflexivity.
Qed.

End RoundTrip.

Section RoundTripMaps.
Context `{SpectralMethods}.

Ltac pick_variant :=
  first [ exists ""; split; [vm_compute; repeat constructor | reflexivity]
        | exists "_err"; split; [vm_compute; repeat constructor | reflexivity]
        | exists "_errn"; split; [vm_compute; repeat constructor | reflexivity]
        | exists "_errp"; split; [vm_compute; repeat constructor | reflexivity]
        | exists "_ul"; split; [vm_compute; repeat constructor | reflexivity] ].

Lemma all_quantities_family (family : string) :
  family ∈ sed_families ->
  exists qs,
    all_quantities family = Ok qs /\
    forall key, key ∈ qs ->
                (exists v, v ∈ variants /\ key = family ++ v) \/
                key ∈ OPTIONAL_QUANTITIES_COMMON.
Proof.
  unfold sed_families. intros Hf.
  repeat (apply elem_of_cons in Hf as [-> | Hf]);
    [ | | | | by apply elem_of_nil in Hf];
    (eexists; split; [reflexivity |]; intros key Hk;
     repeat (apply elem_of_cons in Hk as [-> | Hk];
             [first [left; pick_variant
                    | right; vm_compute; repeat constructor] |]);
     by apply elem_of_nil in Hk).
Qed.

Lemma all_quantities_likelihood :
  exists qs,
    all_quantities "likelihood" = Ok qs /\
    (forall key, key ∈ qs ->
                 key = "norm" \/ key ∈ stored_names \/
                 key ∈ OPTIONAL_QUANTITIES_COMMON) /\
    (forall key, key = "norm" \/ key ∈ stored_names \/
                 key ∈ OPTIONAL_QUANTITIES_COMMON -> key ∈ qs).
Proof.
  eexists. split; [reflexivity |]. split.
  - intros key Hk.
    repeat (apply elem_of_cons in Hk as [-> | Hk];
            [first [left; reflexivity
                   | right; left; vm_compute; by repeat constructor
                   | right; right; vm_compute; by repeat constructor] |]).
    by apply elem_of_nil in Hk.
  - intros key [-> | [Hk | Hk]]; [repeat constructor | |].
    + vm_compute in Hk.
      repeat (apply elem_of_cons in Hk as [-> | Hk]; [by repeat constructor |]).
      by apply elem_of_nil in Hk.
    + vm_compute in Hk.
      repeat (apply elem_of_cons in Hk as [-> | Hk]; [by repeat constructor |]).
      by apply elem_of_nil in Hk.
Qed.

Lemma family_qs_complete (family : string) (qs : list string) :
  family ∈ sed_families ->
  all_quantities family = Ok qs ->
  (forall v, v ∈ variants -> (family ++ v) ∈ qs) /\
  (forall k, k ∈ OPTIONAL_QUANTITIES_COMMON -> k ∈ qs).
Proof.
  unfold sed_families. intros Hf.
  repeat (apply elem_of_cons in Hf as [-> | Hf]);
    [ | | | | by apply elem_of_nil in Hf];
    (intros [= <-]; split;
     [ intros v Hv; vm_compute in Hv
     | intros v Hv; vm_compute in Hv ];
     repeat (apply elem_of_cons in Hv as [-> | Hv]; [by repeat constructor |]);
     by apply elem_of_nil in Hv).
Qed.

Lemma kept_common_spec (k : string) :
  k ∈ kept_common <-> k ∈ OPTIONAL_QUANTITIES_COMMON /\ k <> "npred_excess".
Proof. unfold kept_common. by rewrite list_elem_of_filter, (comm and). Qed.

Lemma to_maps_family (c : FluxMaps) (n : Map float) (rm : SkyModel)
    (family : string) (ref : FluxMaps -> result (list float))
    (r : list float) :
  well_formed c n rm ->
  family ∈ sed_families ->
  family_ref family = Some ref -> ref c = Ok r ->
  length r = length (center (axes_energy (geom n))) ->
  exists maps,
    to_maps c family = Ok maps /\
    (forall v, v ∈ variants ->
               maps !! (family ++ v)
               = scale_map PrimFloat.mul r <$> _data c !! ("norm" ++ v)) /\
    (forall k m, k ∈ kept_common -> _data c !! k = Some m ->
                 maps !! k = Some m) /\
    (forall k, maps !! k = None \/
               (exists v, v ∈ variants /\ k = family ++ v) \/
               k ∈ OPTIONAL_QUANTITIES_COMMON).
Proof.
  intros Hwf Hf Href Hr Hlr.
  destruct (all_quantities_family family Hf) as (qs & Hqs & Hin).
  destruct (family_qs_complete family qs Hf Hqs) as (Hvar & Hcom).
  assert (Hg : forall key, key ∈ qs ->
                           exists o, getattr_or_None c key = Ok o).
  { intros key Hk. destruct (Hin key Hk) as [(v & Hv & ->) | Hc].
    - rewrite (getattr_or_None_family c n rm family v ref r); eauto.
    - destruct (getattr_or_None_common c n rm key Hwf Hc) as (o & Ho & _).
      eauto. }
  destruct (fill_lookup (getattr_or_None c) id qs ∅ Hg)
    as (maps & Hmaps & Hlook & Hout); [by intros |].
  cbv [id] in Hlook, Hout.
  exists maps. split; [| split; [| split]].
  - rewrite to_maps_fill, Hqs. exact Hmaps.
  - intros v Hv.
    rewrite (Hlook (family ++ v) _ (Hvar v Hv)
               (getattr_or_None_family c n rm family v ref r
                  Hwf Hf Hv Href Hr Hlr)).
    by destruct (_data c !! ("norm" ++ v)).
  - intros k m Hk Hm. apply kept_common_spec in Hk as [Hk Hne].
    destruct (getattr_or_None_common c n rm k Hwf Hk) as (o & Ho & Hst).
    rewrite (Hlook k o (Hcom k Hk) Ho), (Hst Hne m Hm). done.
  - intros k. destruct (decide (k ∈ qs)) as [Hk | Hk].
    + right. by apply Hin.
    + left. rewrite Hout; [done |]. intros key Hkey ->. done.
Qed.

End RoundTripMaps.

Section RoundTripBack.
Context `{SpectralMethods}.

Lemma Map_div_scale (q : Map float) (r : list float) :
  length (data q) = length r ->
  Map_div q r = Ok (scale_map PrimFloat.div r q).
Proof.
  intros Hl. unfold Map_div. by rewrite per_energy_Ok.
Qed.

Lemma length_scale_map (op : float -> float -> float) (r : list float)
    (q : Map float) :
  length (data q) = length r -> length (data (scale_map op r q)) = length r.
Proof. intros Hl. simpl. rewrite length_zip_with. lia. Qed.

(** What the round trip does to a stored value [x] of a bin whose
    reference factor is [f]. *)
Lemma scale_round_trip (close : float -> float -> Prop) (r : list float)
    (q : Map float) :
  length (data q) = length r ->
  (forall i row f x,
      data q !! i = Some row -> r !! i = Some f -> x ∈ row ->
      close (PrimFloat.div (PrimFloat.mul x f) f) x) ->
  Forall2 (Forall2 close)
          (data (scale_map PrimFloat.div r (scale_map PrimFloat.mul r q)))
          (data q).
Proof.
  intros Hl Hclose. apply Forall2_same_length_lookup. split.
  { simpl. rewrite !length_zip_with. lia. }
  intros i row' row Hrow' Hrow. simpl in Hrow'.
  rewrite lookup_zip_with, lookup_zip_with, Hrow in Hrow'. simpl in Hrow'.
  destruct (r !! i) as [f|] eqn:Hf; simplify_eq/=.
  rewrite <- list_fmap_compose. apply Forall2_fmap_l, Forall_Forall2_diag.
  apply Forall_forall. intros x Hx. simpl. by apply (Hclose i row f x).
Qed.

Lemma family_strings (family : string) :
  family ∈ sed_families ->
  family ++ "" = family /\
  String.eqb family "likelihood" = false /\
  family <> "likelihood" /\
  registry_get REQUIRED_MAPS family = Some [family] /\
  registry_getitem OPTIONAL_QUANTITIES family
  = Ok ((fun v => family ++ v) <$> error_variants) /\
  (forall v, v ∈ error_variants ->
             str_replace (family ++ v) family "norm" = "norm" ++ v).
Proof.
  unfold sed_families. intros Hf.
  repeat (apply elem_of_cons in Hf as [-> | Hf]);
    [ | | | | by apply elem_of_nil in Hf];
    (do 5 (split; [done |]);
     intros v Hv; unfold error_variants in Hv;
     repeat (apply elem_of_cons in Hv as [-> | Hv]; [reflexivity |]);
     by apply elem_of_nil in Hv).
Qed.

Lemma error_variants_spec (v : string) :
  v ∈ variants <-> v = "" \/ v ∈ error_variants.
Proof.
  unfold variants, error_variants. split.
  - intros Hv. apply elem_of_cons in Hv as [-> | Hv]; [by left | right].
    repeat (apply elem_of_cons in Hv as [-> | Hv]; [by repeat constructor |]).
    by apply elem_of_nil in Hv.
  - intros [-> | Hv]; [by repeat constructor |].
    repeat (apply elem_of_cons in Hv as [-> | Hv]; [by repeat constructor |]).
    by apply elem_of_nil in Hv.
Qed.

Lemma error_variant_nonempty (v : string) : v ∈ error_variants -> v <> "".
Proof.
  unfold error_variants. intros Hv.
  repeat (apply elem_of_cons in Hv as [-> | Hv]; [done |]).
  by apply elem_of_nil in Hv.
Qed.

Lemma norm_variant_not_common (v : string) :
  v ∈ variants -> ("norm" ++ v) ∉ OPTIONAL_QUANTITIES_COMMON.
Proof.
  unfold variants. intros Hv.
  repeat (apply elem_of_cons in Hv as [-> | Hv];
          [vm_compute; intros Hc;
           repeat (apply elem_of_cons in Hc as [Hc | Hc]; [discriminate |]);
           by apply elem_of_nil in Hc |]).
  by apply elem_of_nil in Hv.
Qed.

(** [from_maps] once the reference model is settled: [norm] and its
    siblings are the input maps divided by the reference fluxes, and the
    common quantities are copied. *)
Lemma from_maps_convert_maps (maps : gmap string (Map float))
    (family : string) (rm : SkyModel) (r : list float)
    (map_ref : Map float) (gti_ : option GTI)
    (meta_ : option (gmap string pyval)) :
  family ∈ sed_families ->
  maps !! family = Some map_ref ->
  reference_fluxes (spectral_model rm) (axes_energy (geom map_ref))
    !! ("ref_" ++ family) = Some r ->
  length (data map_ref) = length r ->
  (forall v m, v ∈ error_variants -> maps !! (family ++ v) = Some m ->
               length (data m) = length r) ->
  exists c',
    from_maps_convert maps family rm gti_ meta_ = Ok c' /\
    _reference_model c' = Some rm /\
    meta c' = default ∅ meta_ /\ gti c' = gti_ /\
    _data c' !! "norm" = Some (scale_map PrimFloat.div r map_ref) /\
    (forall v, v ∈ error_variants ->
               _data c' !! ("norm" ++ v)
               = scale_map PrimFloat.div r <$> maps !! (family ++ v)) /\
    (forall k, k ∈ OPTIONAL_QUANTITIES_COMMON ->
               _data c' !! k = maps !! k).
Proof.
  intros Hf Href Hfl Hlr Hlen.
  destruct (family_strings family Hf) as (_ & _ & _ & _ & Hopt & Hren).
  unfold from_maps_convert, getitem. rewrite Href. cbn [bind]. cbv zeta.
  rewrite Hfl. cbn [bind].
  rewrite Map_div_scale by done. cbn [bind].
  rewrite Hopt. cbn [bind].
  set (n' := scale_map PrimFloat.div r map_ref).
  set (g := fun key : string =>
              match maps !! key with
              | Some m =>
                  match Map_div m r with
                  | Ok q => Ok (Some q)
                  | Raise e => Raise e
                  end
              | None => Ok None
              end).
  set (rename := fun key : string => str_replace key family "norm").
  set (optional := (fun v => family ++ v) <$> error_variants).
  assert (Hloop : forall d0,
             for_each (fun (d : gmap string (Map float)) key =>
                         match maps !! key with
                         | Some m =>
                             let* q := Map_div m r in
                             Ok (<[str_replace key family "norm" := q]> d)
                         | None => Ok d
                         end) optional d0
             = fill g rename optional d0).
  { intros d0. unfold fill. apply for_each_ext. intros d key _.
    unfold g, rename. destruct (maps !! key) as [m|]; [| done].
    simpl. by destruct (Map_div m r). }
  rewrite Hloop.
  assert (Hgkey : forall v, v ∈ error_variants ->
             g (family ++ v)
             = Ok (scale_map PrimFloat.div r <$> maps !! (family ++ v))).
  { intros v Hv. unfold g.
    destruct (maps !! (family ++ v)) as [m|] eqn:Hm; simpl; [| done].
    rewrite Map_div_scale; [done |]. by apply (Hlen v m). }
  destruct (fill_lookup g rename optional (<["norm" := n']> ∅))
    as (d1 & Hd1 & Hin & Hout).
  { intros key Hk. unfold optional in Hk.
    apply list_elem_of_fmap in Hk as (v & -> & Hv).
    rewrite (Hgkey v Hv). eauto. }
  { intros k1 k2 Hk1 Hk2. unfold optional in Hk1, Hk2.
    apply list_elem_of_fmap in Hk1 as (v1 & -> & Hv1).
    apply list_elem_of_fmap in Hk2 as (v2 & -> & Hv2).
    unfold rename. rewrite (Hren v1 Hv1), (Hren v2 Hv2).
    intros Heq. by rewrite (append_cancel_l _ _ _ Heq). }
  rewrite Hd1. cbn [bind]. eexists. split; [reflexivity |].
  cbn [_reference_model meta gti _data FluxMaps_init].
  split; [done |]. split; [done |]. split; [done |].
  assert (Hv0 : "" ∈ variants) by (vm_compute; repeat constructor).
  split; [| split].
  - rewrite foldl_copy_lookup.
    rewrite decide_False by apply (norm_variant_not_common "" Hv0).
    rewrite Hout; [by rewrite lookup_insert_eq |].
    intros key Hk. unfold optional in Hk.
    apply list_elem_of_fmap in Hk as (v & -> & Hv').
    unfold rename. rewrite (Hren v Hv'). intros Heq.
    apply (error_variant_nonempty v Hv').
    by apply (append_cancel_l "norm" v "").
  - intros v Hv. rewrite foldl_copy_lookup.
    rewrite decide_False
      by (apply norm_variant_not_common, error_variants_spec; by right).
    pose proof (Hin (family ++ v) _
                  (proj2 (list_elem_of_fmap _ _ _)
                         (ex_intro _ v (conj eq_refl Hv)))
                  (Hgkey v Hv)) as Hl.
    unfold rename in Hl. rewrite (Hren v Hv) in Hl. rewrite Hl.
    destruct (maps !! (family ++ v)) as [m|]; simpl; [done |].
    rewrite lookup_insert_ne, lookup_empty; [done |].
    intros Heq. apply (error_variant_nonempty v Hv).
    by apply (append_cancel_l "norm" v "").
  - intros k Hk. rewrite foldl_copy_lookup, decide_True by done.
    destruct (maps !! k) as [m|] eqn:Hm; simpl; [done |].
    rewrite Hout.
    + rewrite lookup_insert_ne; [done |].
      intros <-. by apply (norm_variant_not_common "" Hv0).
    + intros key Hkey. unfold optional in Hkey.
      apply list_elem_of_fmap in Hkey as (v & -> & Hv).
      unfold rename. rewrite (Hren v Hv). intros <-.
      apply (norm_variant_not_common v); [| done].
      apply error_variants_spec. by right.
Qed.

Lemma from_maps_convert_family (c : FluxMaps) (n : Map float)
    (rm : SkyModel) (family : string) (r : list float)
    (maps : gmap string (Map float)) (gti_ : option GTI)
    (meta_ : option (gmap string pyval)) :
  family ∈ sed_families ->
  _data c !! "norm" = Some n ->
  reference_fluxes (spectral_model rm) (axes_energy (geom n))
    !! ("ref_" ++ family) = Some r ->
  (forall v, v ∈ variants ->
             maps !! (family ++ v)
             = scale_map PrimFloat.mul r <$> _data c !! ("norm" ++ v)) ->
  (forall v q, v ∈ variants -> _data c !! ("norm" ++ v) = Some q ->
               length (data q) = length r) ->
  exists c',
    from_maps_convert maps family rm gti_ meta_ = Ok c' /\
    _reference_model c' = Some rm /\
    meta c' = default ∅ meta_ /\ gti c' = gti_ /\
    (forall v q, v ∈ variants -> _data c !! ("norm" ++ v) = Some q ->
                 _data c' !! ("norm" ++ v)
                 = Some (scale_map PrimFloat.div r
                           (scale_map PrimFloat.mul r q))) /\
    (forall k, k ∈ OPTIONAL_QUANTITIES_COMMON ->
               _data c' !! k = maps !! k).
Proof.
  intros Hf Hn Hfl Hmaps Hlen.
  destruct (family_strings family Hf) as (Hnil & _).
  assert (Hv0 : "" ∈ variants) by (vm_compute; repeat constructor).
  pose proof (Hmaps "" Hv0) as Href. rewrite Hnil in Href.
  change ("norm" ++ "") with "norm" in Href. rewrite Hn in Href.
  simpl in Href.
  destruct (from_maps_convert_maps maps family rm r
              (scale_map PrimFloat.mul r n) gti_ meta_ Hf Href Hfl)
    as (c' & Hc' & Hrm & Hmeta & Hgti & Hnorm & Hsib & Hcommon).
  { apply length_scale_map. by apply (Hlen "" n). }
  { intros v m Hv Hm.
    assert (Hvv : v ∈ variants) by (apply error_variants_spec; by right).
    rewrite (Hmaps v Hvv) in Hm.
    destruct (_data c !! ("norm" ++ v)) as [q|] eqn:Hq; simplify_eq/=.
    rewrite length_zip_with. rewrite (Hlen v q Hvv Hq). lia. }
  exists c'. do 4 (split; [done |]). split; [| done].
  intros v q Hv Hq. apply error_variants_spec in Hv as Hcase.
  destruct Hcase as [-> | Hev].
  - change ("norm" ++ "") with "norm" in *. rewrite Hnorm.
    rewrite Hn in Hq. by injection Hq as <-.
  - rewrite (Hsib v Hev), (Hmaps v Hv), Hq. done.
Qed.

End RoundTripBack.

Section RoundTripTheorem.
Context `{SpectralMethods}.

Lemma to_maps_likelihood (c : FluxMaps) (n : Map float) (rm : SkyModel) :
  well_formed c n rm ->
  exists maps,
    to_maps c "likelihood" = Ok maps /\
    maps !! "norm" = Some n /\
    (forall k, k ∈ stored_names -> maps !! k = _data c !! k) /\
    (forall k m, k ∈ kept_common -> _data c !! k = Some m ->
                 maps !! k = Some m).
Proof.
  intros Hwf. pose proof Hwf as (Hn & _).
  destruct all_quantities_likelihood as (qs & Hqs & Hin & Hni).
  assert (Hg : forall key, key ∈ qs ->
                           exists o, getattr_or_None c key = Ok o).
  { intros key Hk. destruct (Hin key Hk) as [-> | [Hs | Hc]].
    - rewrite (getattr_or_None_norm c n Hn). eauto.
    - rewrite (getattr_or_None_stored c key Hs). eauto.
    - destruct (getattr_or_None_common c n rm key Hwf Hc) as (o & Ho & _).
      eauto. }
  destruct (fill_lookup (getattr_or_None c) id qs ∅ Hg)
    as (maps & Hmaps & Hlook & Hout); [by intros |].
  cbv [id] in Hlook, Hout.
  exists maps. split; [| split; [| split]].
  - rewrite to_maps_fill, Hqs. exact Hmaps.
  - rewrite (Hlook "norm" (Some n)); [done | | by apply getattr_or_None_norm].
    apply Hni. by left.
  - intros k Hk.
    rewrite (Hlook k (_data c !! k));
      [| apply Hni; by right; left | by apply getattr_or_None_stored].
    by destruct (_data c !! k).
  - intros k m Hk Hm. apply kept_common_spec in Hk as [Hk Hne].
    destruct (getattr_or_None_common c n rm k Hwf Hk) as (o & Ho & Hst).
    rewrite (Hlook k o); [| apply Hni; by right; right | done].
    by rewrite (Hst Hne m Hm).
Qed.

Lemma validate_required (keys_ : list string) (sed_type required : string) :
  registry_get REQUIRED_MAPS sed_type = Some [required] ->
  required ∈ keys_ ->
  _validate_data keys_ sed_type = Ok tt.
Proof.
  intros Hr Hk. unfold _validate_data. rewrite Hr. unfold issubset.
  simpl. by rewrite bool_decide_eq_true_2.
Qed.

(** C1 (amended). For every SED type [t] and every well-formed container
    [c], rebuilding from the exported maps with the same reference model
    succeeds without a warning and reproduces [norm] and each stored
    [norm_err], [norm_errn], [norm_errp] and [norm_ul]: unchanged for
    [likelihood], and otherwise bin by bin as [(x * f) / f], hence within
    any tolerance [close] that this scalar round trip meets for the stored
    values [x] and the reference factors [f] of [t]. Every stored common
    optional quantity other than [npred_excess] is reproduced unchanged.
    The scan [stat_scan] is reproduced for [likelihood] only. *)
Theorem sed_round_trip (close : float -> float -> Prop) (c : FluxMaps)
    (n : Map float) (rm : SkyModel) (t : string) (gti_ : option GTI)
    (meta_ : option (gmap string pyval)) :
  t ∈ sed_types ->
  well_formed c n rm ->
  (forall i e_ref e_min e_max f,
      center (axes_energy (geom n)) !! i = Some e_ref ->
      edges (axes_energy (geom n)) !! i = Some e_min ->
      edges (axes_energy (geom n)) !! S i = Some e_max ->
      reference_factor t (spectral_model rm) e_ref e_min e_max = Some f ->
      forall v q row x,
        v ∈ variants -> _data c !! ("norm" ++ v) = Some q ->
        data q !! i = Some row -> x ∈ row ->
        close (PrimFloat.div (PrimFloat.mul x f) f) x) ->
  exists maps c',
    to_maps c t = Ok maps /\
    from_maps maps (Some t) (Some (ASkyModel rm)) gti_ meta_ = ([], Ok c') /\
    _reference_model c' = Some rm /\
    (forall v q,
        v ∈ variants -> _data c !! ("norm" ++ v) = Some q ->
        exists q',
          _data c' !! ("norm" ++ v) = Some q' /\
          geom q' = geom q /\
          (t = "likelihood" -> q' = q) /\
          (t <> "likelihood" ->
           Forall2 (Forall2 close) (data q') (data q))) /\
    (forall k m, k ∈ kept_common -> _data c !! k = Some m ->
                 _data c' !! k = Some m) /\
    (t = "likelihood" ->
     forall m, _data c !! "stat_scan" = Some m ->
               _data c' !! "stat_scan" = Some m).
Proof.
  intros Ht Hwf Hclose.
  pose proof Hwf as (Hn & Hr & Hlen & Hln & Hshape).
  assert (Hcases : t ∈ sed_families \/ t = "likelihood").
  { unfold sed_types in Ht.
    repeat (apply elem_of_cons in Ht as [-> | Ht];
            [first [left; vm_compute; by repeat constructor | by right] |]).
    by apply elem_of_nil in Ht. }
  destruct Hcases as [Hf | ->].
  - destruct (family_ref_bins c n rm t Hn Hr Hlen Hf)
      as (ref & r & Href & Hrc & Hlr & Hfl & Hbins).
    destruct (to_maps_family c n rm t ref r Hwf Hf Href Hrc Hlr)
      as (maps & Hto & Hvar & Hkept & _).
    assert (Hlq : forall v q, v ∈ variants ->
                    _data c !! ("norm" ++ v) = Some q ->
                    length (data q) = length r).
    { intros v q Hv Hq. rewrite Hlr, <- Hln.
      apply shape_length, (Hshape ("norm" ++ v)); [| done].
      unfold variants in Hv.
      repeat (apply elem_of_cons in Hv as [-> | Hv]; [done |]).
      by apply elem_of_nil in Hv. }
    destruct (from_maps_convert_family c n rm t r maps gti_ meta_
                Hf Hn Hfl Hvar Hlq)
      as (c' & Hc' & Hrm & _ & _ & Hnorm & Hcommon).
    assert (Hfacts : t ++ "" = t /\ String.eqb t "likelihood" = false /\
                     registry_get REQUIRED_MAPS t = Some [t] /\
                     t <> "likelihood").
    { unfold sed_families in Hf.
      repeat (apply elem_of_cons in Hf as [-> | Hf]; [done |]).
      by apply elem_of_nil in Hf. }
    destruct Hfacts as (Hnil & Hnl & Hreq & Hne).
    exists maps, c'. split; [done |]. split; [| split; [done |]].
    { unfold from_maps. rewrite (validate_required _ t t Hreq).
      - rewrite Hnl. simpl. by rewrite Hc'.
      - apply elem_of_keys.
        pose proof (Hvar "" ltac:(vm_compute; repeat constructor)) as Hm.
        rewrite Hnil in Hm. change ("norm" ++ "") with "norm" in Hm.
        rewrite Hn in Hm. eauto. }
    split; [| split; [| done]].
    + intros v q Hv Hq. eexists. split; [by apply Hnorm |].
      split; [done |]. split; [done |]. intros _.
      apply scale_round_trip; [by apply (Hlq v) |].
      intros i row f x Hrow Hri Hx.
      assert (Hi : i < length (center (axes_energy (geom n)))).
      { rewrite <- Hlr. by apply lookup_lt_Some in Hri. }
      destruct (lookup_lt_is_Some_2 (center (axes_energy (geom n))) i Hi)
        as [e_ref He].
      destruct (lookup_lt_is_Some_2 (edges (axes_energy (geom n))) i
                  ltac:(lia)) as [e_min Hmin].
      destruct (lookup_lt_is_Some_2 (edges (axes_energy (geom n))) (S i)
                  ltac:(lia)) as [e_max Hmax].
      destruct (Hbins i e_ref e_min e_max He Hmin Hmax) as (f' & Hf' & Hrf).
      rewrite Hri in Hrf. injection Hrf as <-.
      by apply (Hclose i e_ref e_min e_max f He Hmin Hmax Hf' v q row x).
    + intros k m Hk Hm. rewrite Hcommon.
      * by apply Hkept.
      * by apply kept_common_spec in Hk as [Hk _].
  - destruct (to_maps_likelihood c n rm Hwf)
      as (maps & Hto & Hmn & Hst & Hkept).
    exists maps, (FluxMaps_init maps (Some (ASkyModel rm)) meta_ gti_).
    split; [done |]. split; [| split; [done |]].
    { unfold from_maps.
      rewrite (validate_required _ "likelihood" "norm"); [done | done |].
      apply elem_of_keys. eauto. }
    split; [| split].
    + intros v q Hv Hq. exists q. split; [| by repeat split].
      cbn [_data FluxMaps_init]. unfold variants in Hv.
      apply elem_of_cons in Hv as [-> | Hv].
      * change ("norm" ++ "") with "norm" in *. by rewrite Hmn, <- Hq, Hn.
      * rewrite Hst; [done |].
        repeat (apply elem_of_cons in Hv as [-> | Hv];
                [vm_compute; by repeat constructor |]).
        by apply elem_of_nil in Hv.
    + intros k m Hk Hm. by apply Hkept.
    + intros _ m Hm. cbn [_data FluxMaps_init]. rewrite Hst; [done |].
      vm_compute. by repeat constructor.
Qed.

End RoundTripTheorem.

(** ** Legacy likelihood columns *)



Section Legacy.
Context `{SpectralMethods} `{TableReaders}.


End Legacy.

(** ** Guessing the SED type *)

Lemma find_first {A : Type} (f : A -> bool) (l : list A) (x : A) :
  find f l = Some x <->
  exists i, l !! i = Some x /\ f x = true /\
            forall j y, j < i -> l !! j = Some y -> f y = false.
Proof.
  induction l as [|a l IH]; simpl.
  - split; [done | by intros (i & Hi & _)].
  - destruct (f a) eqn:Hfa.
    + split.
      * intros [= ->]. exists 0. repeat split; [done |]. intros; lia.
      * intros (i & Hi & Hfx & Hbefore). destruct i as [|i].
        -- by injection Hi as ->.
        -- rewrite (Hbefore 0 a) in Hfa; [done | lia | done].
    + rewrite IH. split.
      * intros (i & Hi & Hfx & Hbefore). exists (S i).
        repeat split; [done | done |].
        intros [|j] y Hj Hy; simplify_eq/=; [done |].
        apply (Hbefore j); [lia | done].
      * intros (i & Hi & Hfx & Hbefore). destruct i as [|i].
        -- simplify_eq/=. congruence.
        -- exists i. repeat split; [done | done |].
           intros j y Hj Hy. apply (Hbefore (S j)); [lia | done].
Qed.

Lemma find_nothing {A : Type} (f : A -> bool) (l : list A) :
  find f l = None <-> forall x, x ∈ l -> f x = false.
Proof.
  induction l as [|a l IH]; simpl.
  - split; [| done]. intros _ x Hx. by apply elem_of_nil in Hx.
  - destruct (f a) eqn:Hfa.
    + split; [done |]. intros Hall.
      rewrite (Hall a) in Hfa; [done | apply list_elem_of_here].
    + rewrite IH. split.
      * intros Hall x Hx. apply elem_of_cons in Hx as [-> | Hx]; auto.
      * intros Hall x Hx. apply Hall. by apply list_elem_of_further.
Qed.

Lemma issubset_spec (required keys_ : list string) :
  issubset required keys_ = true <-> forall k, k ∈ required -> k ∈ keys_.
Proof.
  unfold issubset. rewrite forallb_forall. split.
  - intros Hall k Hk. apply list_elem_of_In in Hk.
    by apply (bool_decide_eq_true_1 _ (Hall k Hk)).
  - intros Hall k Hk. apply bool_decide_eq_true_2, Hall.
    by apply list_elem_of_In.
Qed.

Section Guess.
Context `{SpectralMethods} `{TableReaders}.

(** C10. Without an SED type given or found in the table header, the type
    is the first of [dnde], [e2dnde], [flux], [eflux], [likelihood] whose
    required columns are all present, so a table that satisfies several
    types gets the earliest one, and construction goes on with it; when no
    type matches, construction raises the error that specifying the sed
    type is required. *)
Theorem guess_sed_type_precedence (quantities : list string) :
  registry_keys REQUIRED_COLUMNS = sed_types
  /\ (forall t required,
        registry_get REQUIRED_COLUMNS t = Some required ->
        (matches quantities t = true <->
         forall k, k ∈ required -> k ∈ quantities))
  /\ (forall t,
        _guess_sed_type quantities = Some t <->
        exists i, sed_types !! i = Some t /\ matches quantities t = true /\
                  forall j t', j < i -> sed_types !! j = Some t' ->
                               matches quantities t' = false)
  /\ (_guess_sed_type quantities = None <->
      forall t, t ∈ sed_types -> matches quantities t = false)
  /\ (forall table reference_model,
        colnames table = quantities ->
        table_meta table !! "SED_TYPE" = None ->
        match _guess_sed_type quantities with
        | Some t =>
            from_table table None reference_model
            = from_table table (Some t) reference_model
        | None =>
            from_table table None reference_model
            = ([], Raise required_sed_type_error)
        end)
  /\ (forall maps reference_model gti_ meta_,
        keys maps = quantities ->
        match _guess_sed_type quantities with
        | Some t =>
            from_maps maps None reference_model gti_ meta_
            = from_maps maps (Some t) reference_model gti_ meta_
        | None =>
            from_maps maps None reference_model gti_ meta_
            = ([], Raise required_sed_type_error)
        end).
Proof.
  split; [reflexivity |]. split; [| split; [| split; [| split]]].
  - intros t required Hr. unfold matches. rewrite Hr. apply issubset_spec.
  - intros t. unfold _guess_sed_type. apply find_first.
  - unfold _guess_sed_type. apply find_nothing.
  - intros table reference_model Hc Hm. unfold from_table.
    rewrite Hm. unfold FluxPoints_guess_sed_type. rewrite Hc.
    by destruct (_guess_sed_type quantities).
  - intros maps reference_model gti_ meta_ Hk. unfold from_maps.
    rewrite Hk. by destruct (_guess_sed_type quantities).
Qed.

End Guess.

(** ** The default reference model *)


Section DefaultModel.
Context `{SpectralMethods} `{TableReaders}.





End DefaultModel.

Section DefaultModelTheorem.
Context `{SpectralMethods} `{TableReaders}.


End DefaultModelTheorem.

(** ** The estimator *)

Lemma for_each_append {A B : Type} (f : A -> result B) (l : list A)
    (acc r : list B) :
  for_each (fun (acc : list B) x => let* y := f x in Ok (acc ++ [y])%list)
           l acc = Ok r
  <-> exists ys, r = (acc ++ ys)%list /\
                 Forall2 (fun x y => f x = Ok y) l ys.
Proof.
  revert acc. induction l as [|x l IH]; intros acc; simpl.
  - split.
    + intros [= <-]. exists []. by rewrite app_nil_r.
    + intros (ys & -> & Hys). apply Forall2_nil_inv_l in Hys as ->.
      by rewrite app_nil_r.
  - destruct (f x) as [y|e] eqn:Hfx; simpl.
    + rewrite IH. split.
      * intros (ys & -> & Hys). exists (y :: ys).
        split; [by rewrite <- app_assoc |]. by constructor.
      * intros (ys & -> & Hys).
        apply Forall2_cons_inv_l in Hys as (y' & ys' & Hy & Hys' & ->).
        rewrite Hfx in Hy. injection Hy as <-.
        exists ys'. split; [by rewrite <- app_assoc | done].
    + split; [done |]. intros (ys & -> & Hys).
      apply Forall2_cons_inv_l in Hys as (y' & ys' & Hy & _).
      by rewrite Hfx in Hy.
Qed.

Lemma zip_adjacent {A : Type} (l : list A) :
  length (zip (removelast l) (tail l)) = pred (length l) /\
  forall i x y, l !! i = Some x -> l !! S i = Some y ->
                zip (removelast l) (tail l) !! i = Some (x, y).
Proof.
  split.
  - rewrite length_zip_with, length_removelast', length_tail'. lia.
  - intros i x y Hx Hy. rewrite lookup_zip_with.
    rewrite lookup_removelast by (apply lookup_lt_Some in Hy; lia).
    rewrite Hx. simpl. by rewrite lookup_tail, Hy.
Qed.

Section EstimatorOrder.
Context `{SpectralMethods} `{TableReaders} `{FitBackend}.

(** The rows that [table_from_row_data] stacks keep their order in every
    column. *)
Lemma table_from_row_data_cells (rows : list Row)
    (meta_ : gmap string pyval) (table : Table) :
  table_from_row_data rows meta_ = Ok table ->
  forall name col,
    columns table !! name = Some col ->
    Forall2 (fun (row : Row) cell => row !! name = Some cell) rows col.
Proof.
  intros Htable name col Hcol. destruct rows as [|first rows'].
  { injection Htable as <-. cbn [columns] in Hcol.
    by rewrite lookup_empty in Hcol. }
  unfold table_from_row_data in Htable.
  set (rows := first :: rows') in *.
  set (g := fun name : string =>
              match for_each (fun (cells : list (list float)) (row : Row) =>
                                let* cell := getitem row name in
                                Ok (cells ++ [cell])%list) rows [] with
              | Ok coldata => Ok (Some coldata)
              | Raise e => Raise e
              end).
  assert (Hfill : for_each (fun (cols : gmap string (list (list float)))
                                name =>
                              let* coldata :=
                                for_each
                                  (fun (cells : list (list float))
                                       (row : Row) =>
                                     let* cell := getitem row name in
                                     Ok (cells ++ [cell])%list) rows [] in
                              Ok (<[name := coldata]> cols))
                           (keys first) ∅
                  = fill g id (keys first) ∅).
  { unfold fill. apply for_each_ext. intros d key _. unfold g.
    by destruct (for_each _ rows []). }
  rewrite Hfill in Htable.
  destruct (fill g id (keys first) ∅) as [cols|e] eqn:Hcols; [| done].
  injection Htable as <-. cbn [columns bind] in Hcol.
  pose proof (fill_Ok_inv _ _ _ _ _ Hcols) as Hg.
  destruct (fill_lookup g id (keys first) ∅ Hg)
    as (cols' & Hcols' & Hlook & Hout); [by intros |].
  rewrite Hcols in Hcols'. injection Hcols' as <-. cbv [id] in Hlook, Hout.
  destruct (decide (name ∈ keys first)) as [Hin | Hnin].
  - destruct (Hg name Hin) as [o Ho].
    rewrite (Hlook name o Hin Ho), lookup_empty in Hcol.
    unfold g in Ho.
    destruct (for_each _ rows []) as [coldata|e] eqn:Hcells; [| done].
    injection Ho as <-. simpl in Hcol. injection Hcol as <-.
    apply for_each_append in Hcells as (ys & -> & Hys). simpl.
    eapply Forall2_impl; [exact Hys |].
    intros row cell Hrc. unfold getitem in Hrc.
    by destruct (row !! name); simplify_eq.
  - rewrite Hout, lookup_empty in Hcol; [done |].
    intros key Hkey ->. done.
Qed.

(** C8. [run] estimates one row for each pair of adjacent energy edges,
    taken in the order of the edges: for [N + 1] edges the rows are exactly
    [N], the [i]-th being the estimate for the edges [i] and [i + 1], and
    the table handed to [FluxPoints.from_table] has these rows in this
    order in every column. For the edges [[1, 3, 10]] there are exactly two
    rows, for [(1, 3)] and then [(3, 10)]. *)
Theorem run_order_and_cardinality (self : FluxPointsEstimator)
    (datasets : Datasets) :
  (forall rows,
      run_rows self datasets = Ok rows <->
      Forall2 (fun (bin : float * float) row =>
                 estimate_flux_point self datasets bin.1 bin.2 = Ok row)
              (zip (removelast (energy_edges self))
                   (tail (energy_edges self)))
              rows)
  /\ (forall rows,
        run_rows self datasets = Ok rows ->
        length rows = pred (length (energy_edges self)) /\
        forall i e_lo e_hi,
          energy_edges self !! i = Some e_lo ->
          energy_edges self !! S i = Some e_hi ->
          exists row,
            rows !! i = Some row /\
            estimate_flux_point self datasets e_lo e_hi = Ok row)
  /\ (forall rows meta_ table name col,
        run_rows self datasets = Ok rows ->
        table_from_row_data rows meta_ = Ok table ->
        columns table !! name = Some col ->
        length col = pred (length (energy_edges self)) /\
        forall i row, rows !! i = Some row ->
                      exists cell, row !! name = Some cell /\
                                   col !! i = Some cell)
  /\ (forall rows table model,
        run_rows self datasets = Ok rows ->
        table_from_row_data rows {[ "SED_TYPE" := PyStr "likelihood" ]}
        = Ok table ->
        source_spectral_model self datasets = Ok model ->
        run self datasets = from_table table None (Some model))
  /\ (forall rows,
        energy_edges self = [1%float; 3%float; 10%float] ->
        run_rows self datasets = Ok rows ->
        exists row1 row2,
          rows = [row1; row2] /\
          estimate_flux_point self datasets 1%float 3%float = Ok row1 /\
          estimate_flux_point self datasets 3%float 10%float = Ok row2).
Proof.
  destruct (zip_adjacent (energy_edges self)) as [Hlen Hadj].
  assert (Hrows : forall rows,
      run_rows self datasets = Ok rows <->
      Forall2 (fun (bin : float * float) row =>
                 estimate_flux_point self datasets bin.1 bin.2 = Ok row)
              (zip (removelast (energy_edges self))
                   (tail (energy_edges self)))
              rows).
  { intros rows. unfold run_rows. rewrite for_each_append. split.
    - by intros (ys & -> & Hys).
    - intros Hys. by exists rows. }
  assert (Hcard : forall rows,
        run_rows self datasets = Ok rows ->
        length rows = pred (length (energy_edges self)) /\
        forall i e_lo e_hi,
          energy_edges self !! i = Some e_lo ->
          energy_edges self !! S i = Some e_hi ->
          exists row,
            rows !! i = Some row /\
            estimate_flux_point self datasets e_lo e_hi = Ok row).
  { intros rows Hr. apply Hrows in Hr. split.
    - by rewrite <- (Forall2_length _ _ _ Hr).
    - intros i e_lo e_hi Hlo Hhi.
      destruct (Forall2_lookup_l _ _ _ i _ Hr (Hadj i e_lo e_hi Hlo Hhi))
        as (row & Hrow & Hest).
      eauto. }
  split; [exact Hrows |]. split; [exact Hcard |].
  split; [| split].
  - intros rows meta_ table name col Hr Ht Hc.
    pose proof (table_from_row_data_cells rows meta_ table Ht name col Hc)
      as Hcells.
    destruct (Hcard rows Hr) as [Hl _]. split.
    + by rewrite <- (Forall2_length _ _ _ Hcells).
    + intros i row Hrow.
      destruct (Forall2_lookup_l _ _ _ i _ Hcells Hrow) as (cell & ? & ?).
      eauto.
  - intros rows table model Hr Ht Hm. unfold run. by rewrite Hr, Ht, Hm.
  - intros rows He Hr. destruct (Hcard rows Hr) as [Hl Hi].
    rewrite He in Hl, Hi. simpl in Hl.
    destruct (Hi 0 1%float 3%float) as (row1 & Hr1 & He1); [done | done |].
    destruct (Hi 1 3%float 10%float) as (row2 & Hr2 & He2); [done | done |].
    destruct rows as [|a [|b [|? ?]]]; simplify_eq/=. eauto.
Qed.

End EstimatorOrder.

(** ** Writing *)

Section WriteTheorems.
Context `{SpectralMethods}.

(** The overwrite guard of [write]: when the primary file exists and
    [overwrite] is false, a write that gets as far as the files raises the
    already-exists error of one of the two targets and leaves the primary
    file as it was. *)
Lemma write_overwrite_guard (c : FluxMaps) (filename : string)
    (filename_model : option string) (sed_type : string)
    (fs : gmap string file_content) (old : file_content) :
  fs !! filename = Some old ->
  is_Ok (to_hdulist c sed_type) ->
  let path := default (default_filename_model filename) filename_model in
  (write c filename filename_model false sed_type fs).1 !! filename
  = Some old /\
  ((write c filename filename_model false sed_type fs).2
   = Raise (already_exists filename) \/
   (write c filename filename_model false sed_type fs).2
   = Raise (already_exists path)).
Proof.
  intros Hold [h Hh] path. unfold write. rewrite Hh.
  change (match filename_model with
          | Some f => f
          | None => default_filename_model filename
          end) with path.
  destruct (write_file fs path (ModelsFile _) false) as [fs1|e] eqn:H1.
  - unfold write_file in H1. simpl in H1.
    destruct (bool_decide (is_Some (fs !! path))) eqn:Hp; [done |].
    injection H1 as <-.
    assert (Hne : path <> filename).
    { intros Heq. apply bool_decide_eq_false in Hp. apply Hp.
      rewrite Heq. eauto. }
    unfold write_file. simpl.
    rewrite bool_decide_eq_true_2
      by (rewrite lookup_insert_ne by done; eauto).
    simpl. rewrite lookup_insert_ne by done. split; [done | by left].
  - unfold write_file in H1. simpl in H1.
    destruct (bool_decide (is_Some (fs !! path))); [| done].
    injection H1 as <-. simpl. split; [done | by right].
Qed.

(** C9. Without [filename_model], [write] names the model file after the
    whole primary path: the suffixes are not stripped, because the result
    of [name_string.replace] is dropped. For [flux.fits] the model file is
    [flux.fits_model.yaml], where the docstring and the specification
    describe [flux_model.yaml]. *)
Theorem default_model_path_keeps_suffixes (filename : string) :
  default_filename_model filename = filename ++ "_model.yaml"
  /\ default_filename_model "flux.fits" = "flux.fits_model.yaml"
  /\ stripped_filename_model "flux.fits" = "flux_model.yaml"
  /\ default_filename_model "flux.fits" <> stripped_filename_model "flux.fits"
  /\ (forall c overwrite sed_type fs,
        (write c filename None overwrite sed_type fs).2 = Ok tt ->
        exists models h,
          (write c filename None overwrite sed_type fs).1
            !! (filename ++ "_model.yaml") = Some (ModelsFile models) /\
          (write c filename None overwrite sed_type fs).1 !! filename
          = Some (FitsFile h) /\
          primary_header h !! "MODEL"
          = Some (PyStr (filename ++ "_model.yaml"))).
Proof.
  split; [reflexivity |]. split; [reflexivity |]. split; [reflexivity |].
  split; [by vm_compute |].
  intros c overwrite sed_type fs. unfold write.
  change (default_filename_model filename) with (filename ++ "_model.yaml").
  destruct (to_hdulist c sed_type) as [h|e]; [| done].
  destruct (write_file fs _ _ overwrite) as [fs1|e] eqn:H1; [| done].
  destruct (write_file fs1 filename _ overwrite) as [fs2|e] eqn:H2; [| done].
  intros _. simpl.
  unfold write_file in H1, H2.
  destruct (negb overwrite && _) in H1; [done |]. injection H1 as <-.
  destruct (negb overwrite && _) in H2; [done |]. injection H2 as <-.
  assert (Hne : filename <> filename ++ "_model.yaml").
  { intros Heq. apply (f_equal String.length) in Heq.
    rewrite string_length_append in Heq. simpl in Heq. lia. }
  eexists _, _. split; [| split].
  - rewrite lookup_insert_ne by done. apply lookup_insert_eq.
  - apply lookup_insert_eq.
  - simpl. apply lookup_insert_eq.
Qed.

End WriteTheorems.

(** ** Concrete runs *)

Lemma is_ul_policy_witness :
  is_ul Examples.points = Ok (mkMap Examples.geom2 [[true]; [false]]) /\
  is_ul Examples.upper_limits_only
  = Ok (mkMap Examples.geom2 [[false]; [true]]).
Proof.
  split.
  - destruct (is_ul_policy Examples.points
                (mkMap Examples.geom2 [[1%float]; [0.5%float]]) eq_refl)
      as (_ & _ & _ & _ & Hts & _).
    exact (Hts _ _ eq_refl eq_refl eq_refl eq_refl).
  - destruct (is_ul_policy Examples.upper_limits_only
                (mkMap Examples.geom2 [[1%float]; [0.5%float]]) eq_refl)
      as (_ & _ & _ & _ & _ & Hul).
    exact (Hul _ eq_refl eq_refl eq_refl).
Defined.

Lemma sqrt_ts_derived_witness :
  exists m,
    sqrt_ts Examples.points = Ok m /\
    data m = [[PrimFloat.sqrt 2%float]; [PrimFloat.sqrt 5%float]].
Proof.
  destruct (sqrt_ts_derived (H := PowerLaw2.methods) Examples.points
              (mkMap Examples.geom2 [[1%float]; [0.5%float]])
              (mkMap Examples.geom2 [[2%float]; [5%float]])
              eq_refl eq_refl eq_refl eq_refl)
    as (m & Hm & _).
  exists m. split; [exact Hm |].
  vm_compute in Hm. injection Hm as <-. reflexivity.
Defined.

Lemma sqrt_ts_not_clipped :
  exists m,
    sqrt_ts Examples.negative_ts = Ok m /\
    data m = [[nan]] /\
    signed_sqrt_of_clipped_ts 1%float (-1)%float = 0%float /\
    PrimFloat.is_nan nan = true /\
    PrimFloat.is_nan (signed_sqrt_of_clipped_ts 1%float (-1)%float) = false.
Proof.
  exists (mkMap Examples.geom1 [[nan]]). repeat split; by vm_compute.
Qed.

Lemma stored_npred_excess_ignored :
  _data Examples.stored_excess !! "npred_excess"
  = Some (mkMap Examples.geom1 [[5%float]]) /\
  getattr (H := PowerLaw2.methods) Examples.stored_excess "npred_excess"
  = Raise (not_defined "npred") /\
  _data Examples.stored_excess_and_npred !! "npred_excess"
  = Some (mkMap Examples.geom1 [[5%float]]) /\
  getattr (H := PowerLaw2.methods) Examples.stored_excess_and_npred
          "npred_excess"
  = Ok (mkMap Examples.geom1 [[2%float]]).
Proof. repeat split; by vm_compute. Qed.

Lemma well_formed_concrete (c : FluxMaps) (n : Map float) (rm : SkyModel) :
  _data c !! "norm" = Some n ->
  _reference_model c = Some rm ->
  length (edges (axes_energy (geom n)))
  = S (length (center (axes_energy (geom n)))) ->
  length (data n) = length (center (axes_energy (geom n))) ->
  Forall (fun p : string * Map float =>
            p.1 <> "stat_scan" -> shape (data p.2) = shape (data n))
         (map_to_list (_data c)) ->
  well_formed c n rm.
Proof.
  intros Hn Hr He Hl Hall. repeat split; try done.
  intros q m Hq Hm. apply elem_of_map_to_list in Hm.
  by apply (proj1 (Forall_forall _ _) Hall (q, m)).
Qed.

Lemma round_trip_drops_scan :
  (well_formed Examples.with_scan
               (mkMap Examples.geom2 [[1%float]; [0.5%float]])
               Examples.model /\
   exists c',
      round_trip (H := PowerLaw2.methods) Examples.with_scan "dnde"
                 Examples.model = ([], Ok c') /\
      _data c' !! "norm" = _data Examples.with_scan !! "norm" /\
      is_Some (_data Examples.with_scan !! "stat_scan") /\
      _data c' !! "stat_scan" = None) /\
  (well_formed Examples.faint (mkMap Examples.geom1 [[0x1p-100%float]])
               Examples.faint_model /\
   exists c',
      round_trip (H := PowerLaw2.methods) Examples.faint "flux"
                 Examples.faint_model = ([], Ok c') /\
      data <$> _data Examples.faint !! "norm" = Some [[0x1p-100%float]] /\
      data <$> _data c' !! "norm" = Some [[0%float]]).
Proof.
  split; split.
  - apply well_formed_concrete; try reflexivity.
    vm_compute. repeat constructor; done.
  - exists (the_result Examples.with_scan
              (round_trip (H := PowerLaw2.methods) Examples.with_scan "dnde"
                          Examples.model).2).
    split; [by vm_compute |]. split; [by vm_compute |].
    split; [eexists; by vm_compute | by vm_compute].
  - apply well_formed_concrete; try reflexivity.
    vm_compute. repeat constructor; done.
  - exists (the_result Examples.faint
              (round_trip (H := PowerLaw2.methods) Examples.faint "flux"
                          Examples.faint_model).2).
    repeat split; by vm_compute.
Qed.

Lemma derived_quantities_witness :
  flux (H := PowerLaw2.methods) Examples.points
  = Ok (mkMap Examples.geom2
          [[PrimFloat.mul 1%float
              (PowerLaw2.integral_ (spectral_model Examples.model)
                                   1%float 10%float)];
           [PrimFloat.mul 0.5%float
              (PowerLaw2.integral_ (spectral_model Examples.model)
                                   10%float 100%float)]]).
Proof.
  destruct (derived_quantities (H := PowerLaw2.methods) Examples.points
              (mkMap Examples.geom2 [[1%float]; [0.5%float]])
              Examples.model eq_refl eq_refl eq_refl)
    as [_ Hflux].
  exact (Hflux _ _ eq_refl eq_refl eq_refl).
Defined.

Lemma Forall2_eq_rows (a b : list (list float)) :
  Forall2 (Forall2 eq) a b -> a = b.
Proof.
  intros Hab. apply list_eq_Forall2.
  eapply Forall2_impl; [exact Hab |].
  intros x y Hxy. by apply list_eq_Forall2.
Qed.

Lemma sed_round_trip_witness :
  exists maps c',
    to_maps (H := PowerLaw2.methods) Examples.points "flux" = Ok maps /\
    from_maps (H := PowerLaw2.methods) maps (Some "flux")
              (Some (ASkyModel Examples.model)) None None = ([], Ok c') /\
    (exists q', _data c' !! "norm" = Some q' /\
                data q' = [[1%float]; [0.5%float]]) /\
    _data c' !! "ts" = _data Examples.points !! "ts".
Proof.
  destruct (sed_round_trip (H := PowerLaw2.methods) eq Examples.points
              (mkMap Examples.geom2 [[1%float]; [0.5%float]])
              Examples.model "flux" None None)
    as (maps & c' & Hto & Hfrom & _ & Hnorm & Hkept & _).
  - vm_compute. repeat constructor.
  - repeat split; try reflexivity.
    intros q m _ Hq. apply elem_of_map_to_list in Hq. vm_compute in Hq.
    repeat (apply elem_of_cons in Hq as [Hq | Hq];
            [injection Hq as -> ->; reflexivity |]).
    by apply elem_of_nil in Hq.
  - intros i e_ref e_min e_max f Hc Hmin Hmax Hf v q row x Hv Hq Hrow Hx.
    unfold variants in Hv.
    destruct i as [|[|i]]; [| | discriminate Hc];
      vm_compute in Hmin; vm_compute in Hmax;
      injection Hmin as <-; injection Hmax as <-;
      vm_compute in Hf; injection Hf as <-;
      repeat (apply elem_of_cons in Hv as [-> | Hv];
              [vm_compute in Hq; try discriminate Hq;
               injection Hq as <-; vm_compute in Hrow;
               injection Hrow as <-;
               apply list_elem_of_singleton in Hx as ->;
               vm_compute; reflexivity |]);
      by apply elem_of_nil in Hv.
  - exists maps, c'. split; [exact Hto |]. split; [exact Hfrom |]. split.
    + destruct (Hnorm "" (mkMap Examples.geom2 [[1%float]; [0.5%float]]))
        as (q' & Hq' & _ & _ & Hclose).
      * vm_compute. repeat constructor.
      * reflexivity.
      * exists q'. split; [exact Hq' |].
        apply Forall2_eq_rows, Hclose. discriminate.
    + apply (Hkept "ts"); [vm_compute; repeat constructor | reflexivity].
Defined.


(** A likelihood table with [loglike = 10] and no [stat] is constructed
    with [stat = 20]. *)
Lemma loglike_table_constructed :
  exists c,
    from_table (H := PowerLaw2.methods) (H0 := GadfReaders.readers)
               Examples.loglike_table None None = ([], Ok c) /\
    data <$> _data c !! "stat" = Some [[20%float]].
Proof.
  exists (the_result Examples.points
            (from_table (H := PowerLaw2.methods) (H0 := GadfReaders.readers)
                        Examples.loglike_table None None).2).
  split; by vm_compute.
Qed.

(** The estimator on the edges [1, 3, 10]: two rows, for [(1, 3)] and
    then [(3, 10)], with the counts of each range. *)
Lemma run_two_bins :
  exists row1 row2,
    run_rows (H1 := UnitFit.backend) Examples.estimator Examples.datasets
    = Ok [row1; row2] /\
    (row1 !! "e_min", row1 !! "e_max", row1 !! "counts")
    = (Some [1%float], Some [3%float], Some [7%float]) /\
    (row2 !! "e_min", row2 !! "e_max", row2 !! "counts")
    = (Some [3%float], Some [10%float], Some [3%float]).
Proof.
  set (rows := the_result []
                 (run_rows (H1 := UnitFit.backend) Examples.estimator
                           Examples.datasets)).
  exists (default ∅ (rows !! 0)), (default ∅ (rows !! 1)).
  repeat split; by vm_compute.
Qed.

Lemma run_two_bins_container :
  exists c,
    run (H := PowerLaw2.methods) (H0 := GadfReaders.readers)
        (H1 := UnitFit.backend) Examples.estimator Examples.datasets
    = ([], Ok c) /\
    data <$> _data c !! "counts" = Some [[7%float]; [3%float]] /\
    (edges ∘ axes_energy ∘ geom) <$> _data c !! "norm"
    = Some [1%float; 3%float; 10%float].
Proof.
  exists (the_result Examples.points
            (run (H := PowerLaw2.methods) (H0 := GadfReaders.readers)
                 (H1 := UnitFit.backend) Examples.estimator
                 Examples.datasets).2).
  repeat split; by vm_compute.
Qed.

(** A table that satisfies [dnde] and [flux] is read as [dnde]. *)
Lemma guess_prefers_dnde :
  _guess_sed_type ["e_min"; "e_max"; "flux"; "e_ref"; "dnde"] = Some "dnde"
  /\ _guess_sed_type ["e_min"; "e_max"; "flux"; "eflux"] = Some "flux"
  /\ _guess_sed_type ["e_min"; "e_max"] = None.
Proof. repeat split; reflexivity. Qed.
